(** * Deadline Reminder System: urgency, recurrence and reminder views

    A shallow embedding of [models/task.py], [models/task_manager.py] and
    [models/reminder_system.py], and the properties of the urgency and
    reminder engine proved over it.

    Conventions of the embedding.
    - A [datetime.date] is its proleptic Gregorian ordinal
      ([date.toordinal()]), an integer between [MINORD] (0001-01-01) and
      [MAXORD] (9999-12-31).  Adding a [timedelta] that leaves this range
      raises [OverflowError], as in Python.
    - A naive [datetime.time] is its number of microseconds since midnight;
      [time.min] is [0].  Comparison of times is comparison of these numbers.
    - The wall clock ([date.today()], [datetime.now()]) is an explicit
      [clock] argument, read once for each operation.
    - [uuid.uuid4()] is an explicit argument of every constructor.
    - Python exceptions are the [Raise] results of an error monad.
    - [str] is [string], the UTF-8 bytes of the text.  [str.lower()] follows
      the case mappings of Unicode, which are not part of this program: it
      is the parameter [str_lower] of the development, and every general
      theorem holds whatever function it is.  The examples run with
      [ascii_lower], which is [str.lower()] on ASCII text.
    - [save_data()] only writes a file and swallows its own exceptions; it
      has no effect on the task list and is left out of the operations of
      the store.  It is modelled on its own, the file being the list of
      records it holds; writing the file itself is taken to succeed. *)

From Stdlib Require Import ZArith String Ascii List Bool Lia.
From Stdlib Require Import Sorted Permutation.
From Stdlib Require Import Floats.PrimFloat Numbers.Cyclic.Int63.Uint63.
From stdpp Require Import base option list gmap strings sorting.

#[local] Open Scope string_scope.
#[local] Open Scope list_scope.
#[local] Open Scope Z_scope.

(** ** Exceptions *)

Inductive exn : Type :=
| OverflowError
| KeyError
| AttributeError.

Inductive result (A : Type) : Type :=
| Ok (a : A)
| Raise (e : exn).

Arguments Ok {A} a.
Arguments Raise {A} e.

Definition bind {A B : Type} (r : result A) (k : A -> result B) : result B :=
  match r with
  | Ok a => k a
  | Raise e => Raise e
  end.

Notation "'let*' x ':=' r 'in' k" := (bind r (fun x => k))
  (at level 10, x name, r at level 100, k at level 200).

Definition returns {A : Type} (r : result A) : Prop := exists a, r = Ok a.

(** ** Dates, times and the clock *)

Definition date : Type := Z.
Definition time : Type := Z.

Definition MINORD : Z := 1.
Definition MAXORD : Z := 3652059.

Definition valid_date (d : date) : Prop := MINORD <= d <= MAXORD.

Definition time_min : time := 0.

(** [d + timedelta(days=n)] *)
Definition date_add (d : date) (n : Z) : result date :=
  let o := d + n in
  if (MINORD <=? o) && (o <=? MAXORD) then Ok o else Raise OverflowError.

Record datetime : Type := mk_datetime { dt_date : date; dt_time : time }.

(** [dt - timedelta(days=n)] *)
Definition datetime_sub_days (dt : datetime) (n : Z) : result datetime :=
  let* d := date_add (dt_date dt) (- n) in
  Ok (mk_datetime d (dt_time dt)).

Definition datetime_ltb (a b : datetime) : bool :=
  (dt_date a <? dt_date b) || ((dt_date a =? dt_date b) && (dt_time a <? dt_time b)).

Record clock : Type := mk_clock { today : date; time_now : time }.

(** [datetime.now()] *)
Definition now (clk : clock) : datetime := mk_datetime (today clk) (time_now clk).

(** ** Strings *)

Definition lower_ascii (c : ascii) : ascii :=
  let n := nat_of_ascii c in
  if (65 <=? n)%nat && (n <=? 90)%nat then ascii_of_nat (n + 32) else c.

(** Lower-casing of ASCII text: the letters [A] to [Z] move to [a] to [z]
    and every other byte is kept.  On ASCII text this is [s.lower()]. *)
Fixpoint lower (s : string) : string :=
  match s with
  | EmptyString => EmptyString
  | String c s' => String (lower_ascii c) (lower s')
  end.

(** [s.lower()].  Python lower-cases with the case mappings of Unicode
    (["É".lower()] is ["é"]); the operations below take the function as
    given, so that nothing proved about them depends on those tables. *)
Class StrLower : Type := str_lower : string -> string.

(** The lower-casing used to run the operations on the ASCII sample data. *)
Definition ascii_lower : StrLower := lower.

(** [sub in s] *)
Fixpoint contains (sub s : string) : bool :=
  String.prefix sub s
  || match s with
     | EmptyString => false
     | String _ s' => contains sub s'
     end.

(** The slice [l[k:]]: a negative [k] counts from the end, and an index
    beyond either end is clipped. *)
Definition slice_from {A : Type} (k : Z) (l : list A) : list A :=
  let n := Z.of_nat (length l) in
  let start := if k <? 0 then Z.max (n + k) 0 else Z.min k n in
  drop (Z.to_nat start) l.

(** [d.weekday()], Monday being [0], and [d.strftime('%A')] in the default
    locale. *)
Definition weekday (d : date) : Z := (d + 6) mod 7.

Definition day_name (d : date) : string :=
  nth (Z.to_nat (weekday d))
    ["Monday"; "Tuesday"; "Wednesday"; "Thursday"; "Friday"; "Saturday"; "Sunday"]
    "".

(** ** Python values that end up in serialised records

    [IsoDate d], [IsoTime t] and [IsoDateTime dt] stand for the strings
    [d.isoformat()], [t.isoformat()] and [dt.isoformat()]. *)

Inductive pyval : Type :=
| PyNone
| PyStr (s : string)
| PyInt (z : Z)
| PyBool (b : bool)
| IsoDate (d : date)
| IsoTime (t : time)
| IsoDateTime (dt : datetime).

(** A number as [get_statistics] returns it: the integer [0] or a float. *)
Inductive pynum : Type :=
| NumInt (z : Z)
| NumFloat (f : float).

(** The binary64 value of a non-negative [int]; exact below [2^53], which
    covers the length of any list. *)
Definition float_of_Z (z : Z) : float := PrimFloat.of_uint63 (Uint63.of_Z z).

(** [a / b] on two such integers: the quotient, rounded once. *)
Definition truediv (a b : Z) : float := PrimFloat.div (float_of_Z a) (float_of_Z b).

(** ** Sorting

    [sorted(l, key=key)] is stable: elements with equal keys keep their
    order.  The stable insertion sort below computes that unique result. *)

Section Sorting.
Context {A K : Type} (lt : K -> K -> bool) (key : A -> K).

Fixpoint insert_sorted (x : A) (l : list A) : list A :=
  match l with
  | [] => [x]
  | y :: l' =>
      if lt (key y) (key x) then y :: insert_sorted x l' else x :: y :: l'
  end.

Fixpoint py_sorted (l : list A) : list A :=
  match l with
  | [] => []
  | x :: l' => insert_sorted x (py_sorted l')
  end.
End Sorting.

(** [<] on the tuples used as sort keys. *)
Definition pair_ltb (a b : Z * Z) : bool :=
  (fst a <? fst b) || ((fst a =? fst b) && (snd a <? snd b)).

Definition pair_le (a b : Z * Z) : Prop :=
  fst a < fst b \/ (fst a = fst b /\ snd a <= snd b).

(** ** Tasks

    [RegularTask] adds nothing to [BaseTask]; a [RecurringTask] carries the
    three recurrence attributes.  [recurring t = None] is a [RegularTask]. *)

Record recurrence : Type := mk_recurrence {
  recurrence_type : string;
  recurrence_count : Z;
  original_deadline : option date
}.

Record Task : Type := mk_task {
  task_id : string;
  title : string;
  description : string;
  deadline_date : date;
  deadline_time : option time;
  priority : Z;
  category : string;
  completed : bool;
  created_at : datetime;
  completed_at : option datetime;
  recurring : option recurrence
}.

(** [isinstance(task, RecurringTask)] *)
Definition is_recurring (t : Task) : bool :=
  match recurring t with Some _ => true | None => false end.

(** Attribute assignment, one function for each attribute. *)

Definition with_task_id (v : string) (t : Task) : Task :=
  mk_task v (title t) (description t) (deadline_date t) (deadline_time t)
    (priority t) (category t) (completed t) (created_at t) (completed_at t)
    (recurring t).

Definition with_title (v : string) (t : Task) : Task :=
  mk_task (task_id t) v (description t) (deadline_date t) (deadline_time t)
    (priority t) (category t) (completed t) (created_at t) (completed_at t)
    (recurring t).

Definition with_description (v : string) (t : Task) : Task :=
  mk_task (task_id t) (title t) v (deadline_date t) (deadline_time t)
    (priority t) (category t) (completed t) (created_at t) (completed_at t)
    (recurring t).

Definition with_deadline_date (v : date) (t : Task) : Task :=
  mk_task (task_id t) (title t) (description t) v (deadline_time t)
    (priority t) (category t) (completed t) (created_at t) (completed_at t)
    (recurring t).

Definition with_deadline_time (v : option time) (t : Task) : Task :=
  mk_task (task_id t) (title t) (description t) (deadline_date t) v
    (priority t) (category t) (completed t) (created_at t) (completed_at t)
    (recurring t).

Definition with_priority (v : Z) (t : Task) : Task :=
  mk_task (task_id t) (title t) (description t) (deadline_date t)
    (deadline_time t) v (category t) (completed t) (created_at t)
    (completed_at t) (recurring t).

Definition with_category (v : string) (t : Task) : Task :=
  mk_task (task_id t) (title t) (description t) (deadline_date t)
    (deadline_time t) (priority t) v (completed t) (created_at t)
    (completed_at t) (recurring t).

Definition with_completed (v : bool) (t : Task) : Task :=
  mk_task (task_id t) (title t) (description t) (deadline_date t)
    (deadline_time t) (priority t) (category t) v (created_at t)
    (completed_at t) (recurring t).

Definition with_created_at (v : datetime) (t : Task) : Task :=
  mk_task (task_id t) (title t) (description t) (deadline_date t)
    (deadline_time t) (priority t) (category t) (completed t) v
    (completed_at t) (recurring t).

Definition with_completed_at (v : option datetime) (t : Task) : Task :=
  mk_task (task_id t) (title t) (description t) (deadline_date t)
    (deadline_time t) (priority t) (category t) (completed t) (created_at t)
    v (recurring t).

Definition with_recurring (v : option recurrence) (t : Task) : Task :=
  mk_task (task_id t) (title t) (description t) (deadline_date t)
    (deadline_time t) (priority t) (category t) (completed t) (created_at t)
    (completed_at t) v.

(** The invariant of the data model: [completed_at] is set exactly when
    [completed] is true. *)
Definition completion_consistent (t : Task) : Prop :=
  completed t = true <-> completed_at t <> None.

Module BaseTask.

(** [deadline_date or date.today()] takes the argument whenever one is
    given, a [date] being always truthy. *)
Definition __init__ {L : StrLower} (uuid : string) (clk : clock)
    (title description : string) (deadline_date : option date)
    (deadline_time : option time) (priority : Z) (category : string) : Task :=
  {| task_id := uuid;
     title := title;
     description := description;
     deadline_date := match deadline_date with Some d => d | None => today clk end;
     deadline_time := deadline_time;
     priority := priority;
     category := str_lower category;
     completed := false;
     created_at := now clk;
     completed_at := None;
     recurring := None |}.

(** The abstract method: its body is [pass], so a call returns [None]. *)
Definition get_urgency_level (clk : clock) (self : Task) : option string := None.

Definition mark_completed (clk : clock) (self : Task) : Task :=
  with_completed_at (Some (now clk)) (with_completed true self).

Definition get_days_until_deadline (clk : clock) (self : Task) : Z :=
  deadline_date self - today clk.

(** A [time] is always truthy (Python 3.5 and later), so
    [... and self.deadline_time] tests that the attribute is not [None]. *)
Definition is_overdue (clk : clock) (self : Task) : bool :=
  if completed self then false
  else if deadline_date self <? today clk then true
  else
    match deadline_date self =? today clk, deadline_time self with
    | true, Some dl => time_now clk >? dl
    | _, _ => false
    end.

Definition to_dict (self : Task) : gmap string pyval :=
  list_to_map
    [ ("task_id", PyStr (task_id self));
      ("title", PyStr (title self));
      ("description", PyStr (description self));
      ("deadline_date", IsoDate (deadline_date self));
      ("deadline_time",
         match deadline_time self with Some t => IsoTime t | None => PyNone end);
      ("priority", PyInt (priority self));
      ("category", PyStr (category self));
      ("completed", PyBool (completed self));
      ("created_at", IsoDateTime (created_at self));
      ("completed_at",
         match completed_at self with Some dt => IsoDateTime dt | None => PyNone end);
      ("task_type",
         PyStr (if is_recurring self then "RecurringTask" else "RegularTask")) ].

End BaseTask.

Module RegularTask.

Definition __init__ {L : StrLower} := BaseTask.__init__.

Definition get_urgency_level (clk : clock) (self : Task) : string :=
  if completed self then "completed"
  else if BaseTask.is_overdue clk self then "overdue"
  else
    let days_left := BaseTask.get_days_until_deadline clk self in
    if priority self =? 1 then
      if days_left <=? 1 then "critical"
      else if days_left <=? 3 then "high"
      else "medium"
    else if priority self =? 2 then
      if days_left <=? 0 then "critical"
      else if days_left <=? 2 then "high"
      else if days_left <=? 5 then "medium"
      else "low"
    else
      if days_left <=? 0 then "high"
      else if days_left <=? 3 then "medium"
      else "low".

End RegularTask.

(** [x == s] for a value [x] that is a [str] or [None]. *)
Definition py_eq (x : option string) (s : string) : bool :=
  match x with
  | Some y => String.eqb y s
  | None => false
  end.

Module RecurringTask.

Definition __init__ {L : StrLower} (uuid : string) (clk : clock)
    (title description : string) (deadline_date : option date)
    (deadline_time : option time) (priority : Z) (category : string)
    (recurrence_type : string) (recurrence_count : Z) : Task :=
  let self :=
    BaseTask.__init__ uuid clk title description deadline_date deadline_time
      priority category in
  with_recurring
    (Some {| recurrence_type := recurrence_type;
             recurrence_count := recurrence_count;
             original_deadline := deadline_date |}) self.

(** [RecurringTask] derives from [BaseTask], so [super()] is [BaseTask]. *)
Definition get_urgency_level (clk : clock) (self : Task) : option string :=
  let base_urgency := BaseTask.get_urgency_level clk self in
  if py_eq base_urgency "critical" then Some "high"
  else if py_eq base_urgency "high" then Some "medium"
  else base_urgency.

(** [timedelta(weeks=n)] is [timedelta(days=7*n)].  On a task without the
    recurrence attributes the attribute lookup fails. *)
Definition get_next_deadline (self : Task) : result date :=
  match recurring self with
  | None => Raise AttributeError
  | Some r =>
      if String.eqb (recurrence_type r) "daily" then
        date_add (deadline_date self) (recurrence_count r)
      else if String.eqb (recurrence_type r) "weekly" then
        date_add (deadline_date self) (7 * recurrence_count r)
      else if String.eqb (recurrence_type r) "monthly" then
        date_add (deadline_date self) (30 * recurrence_count r)
      else Ok (deadline_date self)
  end.

Definition reset_for_next_cycle (self : Task) : result Task :=
  let* d := get_next_deadline self in
  Ok (with_completed_at None (with_completed false (with_deadline_date d self))).

Definition to_dict (self : Task) : result (gmap string pyval) :=
  let data := BaseTask.to_dict self in
  match recurring self with
  | None => Raise AttributeError
  | Some r =>
      match original_deadline r with
      | None => Raise AttributeError
      | Some d0 =>
          Ok (<["recurrence_type" := PyStr (recurrence_type r)]>
               (<["recurrence_count" := PyInt (recurrence_count r)]>
                 (<["original_deadline" := IsoDate d0]> data)))
      end
  end.

End RecurringTask.

(** Method dispatch on the class of the task. *)
Definition get_urgency_level (clk : clock) (t : Task) : option string :=
  if is_recurring t then RecurringTask.get_urgency_level clk t
  else Some (RegularTask.get_urgency_level clk t).

(** ** The urgency table and the demotion of the specification *)

Inductive Priority : Type := High | Medium | Low.

Definition priority_code (p : Priority) : Z :=
  match p with High => 1 | Medium => 2 | Low => 3 end.

Definition spec_urgency_table (p : Priority) (days_left : Z) : string :=
  match p with
  | High =>
      if days_left <=? 1 then "critical"
      else if days_left <=? 3 then "high" else "medium"
  | Medium =>
      if days_left <=? 0 then "critical"
      else if days_left <=? 2 then "high"
      else if days_left <=? 5 then "medium" else "low"
  | Low =>
      if days_left <=? 0 then "high"
      else if days_left <=? 3 then "medium" else "low"
  end.

Definition spec_demote (level : string) : string :=
  if String.eqb level "critical" then "high"
  else if String.eqb level "high" then "medium"
  else level.

(** ** The task store *)

(** One keyword argument of [update_task], with a value of the type of the
    attribute it names.  [set_other key] is a keyword that names no
    attribute of the task.  Keywords naming a method are outside the model. *)
Inductive field_update : Type :=
| set_task_id (v : string)
| set_title (v : string)
| set_description (v : string)
| set_deadline_date (v : date)
| set_deadline_time (v : option time)
| set_priority (v : Z)
| set_category (v : string)
| set_completed (v : bool)
| set_created_at (v : datetime)
| set_completed_at (v : option datetime)
| set_recurrence_type (v : string)
| set_recurrence_count (v : Z)
| set_original_deadline (v : option date)
| set_other (key : string).

(** [if hasattr(task, key): setattr(task, key, value)] *)
Definition setattr_if_present (u : field_update) (t : Task) : Task :=
  match u with
  | set_task_id v => with_task_id v t
  | set_title v => with_title v t
  | set_description v => with_description v t
  | set_deadline_date v => with_deadline_date v t
  | set_deadline_time v => with_deadline_time v t
  | set_priority v => with_priority v t
  | set_category v => with_category v t
  | set_completed v => with_completed v t
  | set_created_at v => with_created_at v t
  | set_completed_at v => with_completed_at v t
  | set_recurrence_type v =>
      match recurring t with
      | Some r =>
          with_recurring
            (Some (mk_recurrence v (recurrence_count r) (original_deadline r))) t
      | None => t
      end
  | set_recurrence_count v =>
      match recurring t with
      | Some r =>
          with_recurring
            (Some (mk_recurrence (recurrence_type r) v (original_deadline r))) t
      | None => t
      end
  | set_original_deadline v =>
      match recurring t with
      | Some r =>
          with_recurring
            (Some (mk_recurrence (recurrence_type r) (recurrence_count r) v)) t
      | None => t
      end
  | set_other _ => t
  end.

(** The keyword writes [completed] or [completed_at]. *)
Definition touches_completion (u : field_update) : bool :=
  match u with
  | set_completed _ | set_completed_at _ => true
  | _ => false
  end.

(** The keyword names an attribute that a Regular task does not have. *)
Definition recurrence_keyword (u : field_update) : bool :=
  match u with
  | set_recurrence_type _ | set_recurrence_count _ | set_original_deadline _
  | set_other _ => true
  | _ => false
  end.

(** The sort key [(t.deadline_date, t.deadline_time or time.min)]. *)
Definition deadline_key (t : Task) : Z * Z :=
  (deadline_date t, match deadline_time t with Some x => x | None => time_min end).

(** The sort key [(t.deadline_date, t.priority)]. *)
Definition urgent_key (t : Task) : Z * Z := (deadline_date t, priority t).

Record Statistics : Type := mk_statistics {
  stat_total : Z;
  stat_completed : Z;
  stat_pending : Z;
  stat_overdue : Z;
  stat_completion_rate : pynum;
  stat_by_category : gmap string Z;
  stat_by_priority : gmap Z Z
}.

(** The JSON document [{'tasks': [...], 'last_updated': ...}]. *)
Record saved_file : Type := mk_saved_file {
  file_tasks : list (gmap string pyval);
  file_last_updated : pyval
}.

Module TaskManager.

Definition add_task {L : StrLower} (tasks : list Task) (uuid : string)
    (clk : clock) (title description : string) (deadline_date : option date)
    (deadline_time : option time) (priority : Z) (category : string)
    (task_type : string)
    (recurrence_type : option string) (recurrence_count : option Z)
    : list Task * bool :=
  let task :=
    if String.eqb task_type "recurring" then
      RecurringTask.__init__ uuid clk title description deadline_date
        deadline_time priority category
        (default "daily" recurrence_type) (default 1 recurrence_count)
    else
      RegularTask.__init__ uuid clk title description deadline_date
        deadline_time priority category in
  (tasks ++ [task], true).

Definition get_all_tasks (tasks : list Task) : list Task :=
  py_sorted pair_ltb deadline_key tasks.

(** The first task with the identifier, with its position in the list,
    which stands for the reference the method returns. *)
Definition get_task_by_id (tasks : list Task) (id : string)
    : option (nat * Task) :=
  list_find (fun t => task_id t = id) tasks.

Definition get_tasks_by_date (tasks : list Task) (target_date : date)
    : list Task :=
  List.filter (fun t => deadline_date t =? target_date) tasks.

Definition get_upcoming_tasks (clk : clock) (tasks : list Task) (days : Z)
    : result (list Task) :=
  let today := today clk in
  let* future_date := date_add today days in
  let upcoming :=
    List.filter
      (fun t =>
         (today <=? deadline_date t) && (deadline_date t <=? future_date)
         && negb (completed t))
      tasks in
  Ok (py_sorted pair_ltb deadline_key upcoming).

Definition get_overdue_tasks (clk : clock) (tasks : list Task) : list Task :=
  List.filter (BaseTask.is_overdue clk) tasks.

Definition get_completed_tasks (tasks : list Task) : list Task :=
  List.filter completed tasks.

Definition get_pending_tasks (tasks : list Task) : list Task :=
  List.filter (fun t => negb (completed t)) tasks.

Definition get_tasks_by_priority (tasks : list Task) (p : Z) : list Task :=
  List.filter (fun t => priority t =? p) tasks.

Definition _handle_recurring_task_completion {L : StrLower}
    (tasks : list Task)
    (recurring_task : Task) (uuid : string) (clk : clock)
    : result (list Task) :=
  match recurring recurring_task with
  | None => Raise AttributeError
  | Some r =>
      let* next_deadline := RecurringTask.get_next_deadline recurring_task in
      let next_task :=
        RecurringTask.__init__ uuid clk
          (title recurring_task) (description recurring_task)
          (Some next_deadline) (deadline_time recurring_task)
          (priority recurring_task) (category recurring_task)
          (recurrence_type r) (recurrence_count r) in
      Ok (tasks ++ [next_task])
  end.

(** The list after the call, and what the call returns or raises. *)
Definition mark_completed {L : StrLower} (tasks : list Task) (id : string)
    (uuid : string) (clk : clock) : list Task * result bool :=
  match get_task_by_id tasks id with
  | Some (i, task) =>
      let task := BaseTask.mark_completed clk task in
      let tasks := <[i := task]> tasks in
      if is_recurring task then
        match _handle_recurring_task_completion tasks task uuid clk with
        | Ok tasks' => (tasks', Ok true)
        | Raise e => (tasks, Raise e)
        end
      else (tasks, Ok true)
  | None => (tasks, Ok false)
  end.

Definition delete_task (tasks : list Task) (id : string) : list Task * bool :=
  match get_task_by_id tasks id with
  | Some (i, _) => (delete i tasks, true)
  | None => (tasks, false)
  end.

Definition update_task (tasks : list Task) (id : string)
    (kwargs : list field_update) : list Task * bool :=
  match get_task_by_id tasks id with
  | None => (tasks, false)
  | Some (i, task) =>
      let task := fold_left (fun t u => setattr_if_present u t) kwargs task in
      (<[i := task]> tasks, true)
  end.

(** [category_stats[c] = category_stats.get(c, 0) + 1] over the tasks. *)
Definition count_categories (tasks : list Task) : gmap string Z :=
  fold_left
    (fun (m : gmap string Z) t =>
       <[category t := default 0 (m !! category t) + 1]> m)
    tasks ∅.

(** [priority_stats[p] += 1] over the tasks; a missing key raises. *)
Fixpoint count_priorities (m : gmap Z Z) (tasks : list Task)
    : result (gmap Z Z) :=
  match tasks with
  | [] => Ok m
  | t :: tasks' =>
      match m !! priority t with
      | Some n => count_priorities (<[priority t := n + 1]> m) tasks'
      | None => Raise KeyError
      end
  end.

Definition get_statistics (clk : clock) (tasks : list Task)
    : result Statistics :=
  let total_tasks := Z.of_nat (length tasks) in
  let completed_tasks := Z.of_nat (length (get_completed_tasks tasks)) in
  let pending_tasks := Z.of_nat (length (get_pending_tasks tasks)) in
  let overdue_tasks := Z.of_nat (length (get_overdue_tasks clk tasks)) in
  let completion_rate :=
    if 0 <? total_tasks then
      NumFloat (PrimFloat.mul (truediv completed_tasks total_tasks) 100%float)
    else NumInt 0 in
  let category_stats := count_categories tasks in
  let* priority_stats :=
    count_priorities (<[1 := 0]> (<[2 := 0]> (<[3 := 0]> ∅))) tasks in
  Ok {| stat_total := total_tasks;
        stat_completed := completed_tasks;
        stat_pending := pending_tasks;
        stat_overdue := overdue_tasks;
        stat_completion_rate := completion_rate;
        stat_by_category := category_stats;
        stat_by_priority := priority_stats |}.

(** The list after the call and the number of tasks removed. *)
Definition cleanup_completed_tasks (clk : clock) (tasks : list Task)
    (days_old : Z) : result (list Task * Z) :=
  let* cutoff_date := datetime_sub_days (now clk) days_old in
  let initial_count := Z.of_nat (length tasks) in
  let tasks' :=
    List.filter
      (fun t =>
         negb (completed t &&
               match completed_at t with
               | Some c => datetime_ltb c cutoff_date
               | None => false
               end))
      tasks in
  Ok (tasks', initial_count - Z.of_nat (length tasks')).

Definition get_tasks_by_category {L : StrLower} (tasks : list Task)
    (category_name : string) : list Task :=
  List.filter
    (fun t => String.eqb (str_lower (category t)) (str_lower category_name))
    tasks.

Definition search_tasks {L : StrLower} (tasks : list Task) (query : string)
    : list Task :=
  let query := str_lower query in
  List.filter
    (fun t =>
       contains query (str_lower (title t))
       || contains query (str_lower (description t)))
    tasks.

(** [task.to_dict()], dispatched on the class of the task. *)
Definition task_to_dict (t : Task) : result (gmap string pyval) :=
  if is_recurring t then RecurringTask.to_dict t else Ok (BaseTask.to_dict t).

(** [[task.to_dict() for task in self.tasks]] *)
Fixpoint tasks_to_dicts (tasks : list Task) : result (list (gmap string pyval)) :=
  match tasks with
  | [] => Ok []
  | t :: tasks' =>
      let* d := task_to_dict t in
      let* ds := tasks_to_dicts tasks' in
      Ok (d :: ds)
  end.

(** The file after the call: the records are built before the file is
    opened, and an exception leaves the file as it was. *)
Definition save_data (clk : clock) (tasks : list Task) (file : option saved_file)
    : option saved_file :=
  match tasks_to_dicts tasks with
  | Ok records =>
      Some {| file_tasks := records; file_last_updated := IsoDateTime (now clk) |}
  | Raise _ => file
  end.

End TaskManager.

(** ** The reminder aggregator *)

Record settings : Type := mk_settings {
  urgent_threshold : Z;
  upcoming_threshold : Z;
  enable_sound : bool;
  enable_notifications : bool
}.

Record Reminder : Type := mk_reminder {
  task_manager : list Task;
  reminder_settings : settings
}.

(** One entry of the notification history. *)
Record notification : Type := mk_notification {
  notif_timestamp : pyval;
  notif_type : string;
  notif_message : string
}.

Record daily_summary : Type := mk_daily_summary {
  summary_date : pyval;
  summary_urgent_count : Z;
  summary_upcoming_count : Z;
  summary_overdue_count : Z;
  summary_total_pending : Z;
  summary_today_tasks : list Task;
  summary_high_priority_pending : Z;
  summary_completion_rate : pynum
}.

Record day_info : Type := mk_day_info {
  day_date : pyval;
  day_day_name : string;
  day_is_today : bool;
  day_task_count : Z;
  day_tasks : list Task;
  day_has_high_priority : bool
}.

Record schedule_suggestion : Type := mk_schedule_suggestion {
  morning_tasks : list string;
  afternoon_tasks : list string;
  evening_tasks : list string
}.

Module BaseReminder.

Definition __init__ (task_manager : list Task) : Reminder :=
  {| task_manager := task_manager;
     reminder_settings :=
       {| urgent_threshold := 0;
          upcoming_threshold := 3;
          enable_sound := false;
          enable_notifications := true |} |}.

Definition get_tasks_by_urgency (clk : clock) (self : Reminder)
    (urgency_level : string) : list Task :=
  let tasks := TaskManager.get_pending_tasks (task_manager self) in
  List.filter (fun t => py_eq (get_urgency_level clk t) urgency_level) tasks.

End BaseReminder.

Module ReminderSystem.

(** The loop that keeps the first task of each identifier. *)
Fixpoint remove_duplicates (seen_ids : gset string) (urgent_tasks : list Task)
    : list Task :=
  match urgent_tasks with
  | [] => []
  | task :: rest =>
      if decide (task_id task ∈ seen_ids) then remove_duplicates seen_ids rest
      else task :: remove_duplicates ({[task_id task]} ∪ seen_ids) rest
  end.

Definition today_tasks (clk : clock) (self : Reminder) : list Task :=
  List.filter (fun t => deadline_date t =? today clk)
    (TaskManager.get_pending_tasks (task_manager self)).

Definition get_urgent_reminders (clk : clock) (self : Reminder) : list Task :=
  let overdue_tasks := TaskManager.get_overdue_tasks clk (task_manager self) in
  let urgent_tasks := today_tasks clk self ++ overdue_tasks in
  let unique_urgent := remove_duplicates ∅ urgent_tasks in
  py_sorted pair_ltb urgent_key unique_urgent.

Definition get_upcoming_reminders (clk : clock) (self : Reminder)
    : result (list Task) :=
  let threshold := upcoming_threshold (reminder_settings self) in
  let* upcoming_tasks :=
    TaskManager.get_upcoming_tasks clk (task_manager self) threshold in
  Ok (List.filter (fun t => negb (deadline_date t =? today clk)) upcoming_tasks).

Definition get_overdue_reminders (clk : clock) (self : Reminder) : list Task :=
  TaskManager.get_overdue_tasks clk (task_manager self).

Definition get_priority_reminders (self : Reminder) (p : Z) : list Task :=
  List.filter (fun t => priority t =? p)
    (TaskManager.get_pending_tasks (task_manager self)).

Definition get_category_reminders {L : StrLower} (self : Reminder)
    (category_name : string) : list Task :=
  List.filter
    (fun t => String.eqb (str_lower (category t)) (str_lower category_name))
    (TaskManager.get_pending_tasks (task_manager self)).

(** The entries of the dictionary are evaluated in the order written. *)
Definition create_daily_summary (clk : clock) (self : Reminder)
    : result daily_summary :=
  let today := today clk in
  let urgent_count := Z.of_nat (length (get_urgent_reminders clk self)) in
  let* upcoming := get_upcoming_reminders clk self in
  let overdue_count := Z.of_nat (length (get_overdue_reminders clk self)) in
  let total_pending :=
    Z.of_nat (length (TaskManager.get_pending_tasks (task_manager self))) in
  let today_tasks := TaskManager.get_tasks_by_date (task_manager self) today in
  let high_priority_pending :=
    Z.of_nat (length (get_priority_reminders self 1)) in
  let* stats := TaskManager.get_statistics clk (task_manager self) in
  Ok {| summary_date := IsoDate today;
        summary_urgent_count := urgent_count;
        summary_upcoming_count := Z.of_nat (length upcoming);
        summary_overdue_count := overdue_count;
        summary_total_pending := total_pending;
        summary_today_tasks := today_tasks;
        summary_high_priority_pending := high_priority_pending;
        summary_completion_rate := stat_completion_rate stats |}.

(** The body of the loop of [get_weekly_outlook], for day [i]. *)
Definition outlook_day (clk : clock) (self : Reminder) (i : Z) : result day_info :=
  let today := today clk in
  let* target_date := date_add today i in
  let day_tasks := TaskManager.get_tasks_by_date (task_manager self) target_date in
  Ok {| day_date := IsoDate target_date;
        day_day_name := day_name target_date;
        day_is_today := target_date =? today;
        day_task_count := Z.of_nat (length day_tasks);
        day_tasks := day_tasks;
        day_has_high_priority := existsb (fun t => priority t =? 1) day_tasks |}.

(** The loop over the days [days], in order. *)
Fixpoint outlook_days (clk : clock) (self : Reminder) (days : list Z)
    : result (list day_info) :=
  match days with
  | [] => Ok []
  | i :: days' =>
      let* info := outlook_day clk self i in
      let* outlook := outlook_days clk self days' in
      Ok (info :: outlook)
  end.

Definition get_weekly_outlook (clk : clock) (self : Reminder)
    : result (list day_info) :=
  outlook_days clk self [0; 1; 2; 3; 4; 5; 6].

(** The history after the call. *)
Definition log_notification (clk : clock) (notification_history : list notification)
    (notification_type message : string) : list notification :=
  let history :=
    notification_history
      ++ [ {| notif_timestamp := IsoDateTime (now clk);
              notif_type := notification_type;
              notif_message := message |} ] in
  if (100 <? length history)%nat then slice_from (-100) history else history.

Definition get_notification_history (notification_history : list notification)
    (limit : Z) : list notification :=
  match notification_history with
  | [] => []
  | _ => slice_from (- limit) notification_history
  end.

End ReminderSystem.

Module SmartReminder.

(** [x < 70] on the completion rate, which is [0] or a float. *)
Definition below_70 (x : pynum) : bool :=
  match x with
  | NumInt z => z <? 70
  | NumFloat f => PrimFloat.ltb f 70%float
  end.

(** [d[k]] on the priority counters. *)
Definition getitem (m : gmap Z Z) (k : Z) : result Z :=
  match m !! k with
  | Some v => Ok v
  | None => Raise KeyError
  end.

Definition get_smart_recommendations (clk : clock) (self : Reminder)
    : result (list string) :=
  let* stats := TaskManager.get_statistics clk (task_manager self) in
  let r1 :=
    if below_70 (stat_completion_rate stats)
    then ["💡 Consider breaking large tasks into smaller ones"] else [] in
  let r2 :=
    if 3 <? stat_overdue stats
    then ["⚠️ You have many overdue tasks. Consider rescheduling or prioritizing"]
    else [] in
  let r3 :=
    if (size (stat_by_category stats) =? 1)%nat
    then ["📋 Try categorizing your tasks for better organization"] else [] in
  let* high := getitem (stat_by_priority stats) 1 in
  let* medium := getitem (stat_by_priority stats) 2 in
  let* low := getitem (stat_by_priority stats) 3 in
  let r4 :=
    if medium + low <? high
    then ["🎯 Consider if all high-priority tasks are truly urgent"] else [] in
  Ok (r1 ++ r2 ++ r3 ++ r4).

Definition get_optimal_schedule_suggestion (self : Reminder)
    : schedule_suggestion :=
  let pending_tasks := TaskManager.get_pending_tasks (task_manager self) in
  let high_priority := List.filter (fun t => priority t =? 1) pending_tasks in
  let medium_priority := List.filter (fun t => priority t =? 2) pending_tasks in
  let low_priority := List.filter (fun t => priority t =? 3) pending_tasks in
  {| morning_tasks := map title (take 3 high_priority);
     afternoon_tasks := map title (take 2 medium_priority);
     evening_tasks := map title (take 1 low_priority) |}.

End SmartReminder.

(** The four levels of a pending task that is not overdue, from the least
    to the most urgent. *)
Definition urgency_rank (level : string) : Z :=
  if String.eqb level "low" then 0
  else if String.eqb level "medium" then 1
  else if String.eqb level "high" then 2
  else if String.eqb level "critical" then 3
  else -1.

(** The clock [a] is not later than the clock [b]. *)
Definition clock_le (a b : clock) : Prop :=
  today a < today b \/ (today a = today b /\ time_now a <= time_now b).

(** The priorities of the data model. *)
Definition valid_priority (t : Task) : Prop :=
  priority t = 1 \/ priority t = 2 \/ priority t = 3.

(** [t] is the first task of [l] that carries its identifier. *)
Definition first_occurrence (t : Task) (l : list Task) : Prop :=
  exists l1 l2,
    l = l1 ++ t :: l2 /\ Forall (fun x => task_id x <> task_id t) l1.

(** Ascending order of a list of tasks under a key. *)
Definition ascending (key : Task -> Z * Z) (l : list Task) : Prop :=
  StronglySorted (fun a b => pair_le (key a) (key b)) l.

(** ** Sample data *)

Definition jan_1_2024 : date := 738886.
Definition dec_31_9999 : date := MAXORD.

(** 12:00:00 and 09:00:00 *)
Definition noon : time := 43200000000.
Definition nine_am : time := 32400000000.

Definition new_year_noon : clock := mk_clock jan_1_2024 noon.

Definition report : Task :=
  RegularTask.__init__ (L := ascii_lower) "id-report" new_year_noon
    "Report" "quarterly"
    (Some (jan_1_2024 + 1)) None 1 "Kerja".

Definition standup : Task :=
  RecurringTask.__init__ (L := ascii_lower) "id-standup" new_year_noon
    "Standup" ""
    (Some jan_1_2024) None 1 "kerja" "daily" 3.

(** A store at noon of 2024-01-01: a report due tomorrow, a stand-up due
    today at 09:00, an invoice due yesterday, a call due today at any time
    and a finished task that was due today. *)
Definition sample_store : list Task :=
  [ report;
    with_deadline_time (Some nine_am) standup;
    RegularTask.__init__ (L := ascii_lower) "id-invoice" new_year_noon
      "Invoice" ""
      (Some (jan_1_2024 - 1)) None 2 "kerja";
    RegularTask.__init__ (L := ascii_lower) "id-call" new_year_noon "Call" ""
      (Some jan_1_2024) None 3 "pribadi";
    BaseTask.mark_completed new_year_noon
      (RegularTask.__init__ (L := ascii_lower) "id-done" new_year_noon
         "Done" ""
         (Some jan_1_2024) None 1 "pribadi") ].

(** Closes [valid_date d] on a concrete date. *)
Ltac solve_valid_date := vm_compute; split; discriminate.

(** ** Basic facts about dates and strings *)

Lemma date_add_in_range (d : date) (n : Z) :
  valid_date (d + n) -> date_add d n = Ok (d + n).
Proof.
  unfold valid_date, date_add. intros [Hlo Hhi].
  apply Z.leb_le in Hlo. apply Z.leb_le in Hhi.
  cbv zeta. rewrite Hlo, Hhi. reflexivity.
Qed.

Lemma date_add_out_of_range (d : date) (n : Z) :
  ~ valid_date (d + n) -> date_add d n = Raise OverflowError.
Proof.
  unfold valid_date, date_add. intros Hout. cbv zeta.
  destruct (Z.leb_spec MINORD (d + n)), (Z.leb_spec (d + n) MAXORD);
    simpl; try reflexivity.
  exfalso. apply Hout. split; assumption.
Qed.

Lemma date_add_Ok (d : date) (n : Z) (d' : date) :
  date_add d n = Ok d' -> d' = d + n /\ valid_date d'.
Proof.
  unfold date_add, valid_date. cbv zeta.
  destruct (Z.leb_spec MINORD (d + n)), (Z.leb_spec (d + n) MAXORD);
    simpl; intros Heq; inversion Heq; subst; auto.
Qed.

Lemma lower_ascii_idempotent (c : ascii) :
  lower_ascii (lower_ascii c) = lower_ascii c.
Proof. destruct c as [[] [] [] [] [] [] [] []]; reflexivity. Qed.

Lemma lower_idempotent (s : string) : lower (lower s) = lower s.
Proof.
  induction s as [| c s IH]; simpl; [reflexivity |].
  rewrite lower_ascii_idempotent, IH. reflexivity.
Qed.

(** Both constructors store the category in lower case. *)
Lemma init_category_lowercase {L : StrLower} (uuid : string) (clk : clock)
    (ttl desc : string) (dd : option date) (dt : option time) (p : Z)
    (cat rtype : string) (rcount : Z) :
  let regular := RegularTask.__init__ uuid clk ttl desc dd dt p cat in
  let recurring :=
    RecurringTask.__init__ uuid clk ttl desc dd dt p cat rtype rcount in
  category regular = str_lower cat /\ category recurring = str_lower cat.
Proof. split; reflexivity. Qed.

(** ** The task entity *)

(** C1. A Regular task's urgency level is ["completed"] when it is completed,
    otherwise ["overdue"] when it is overdue, and otherwise the entry of the
    specification's table for its priority and [deadline_date - today]. *)
Theorem regular_urgency_matches_table (clk : clock) (t : Task) :
  (completed t = true -> RegularTask.get_urgency_level clk t = "completed") /\
  (completed t = false -> BaseTask.is_overdue clk t = true ->
     RegularTask.get_urgency_level clk t = "overdue") /\
  (forall p : Priority,
     completed t = false -> BaseTask.is_overdue clk t = false ->
     priority t = priority_code p ->
     RegularTask.get_urgency_level clk t
       = spec_urgency_table p (deadline_date t - today clk)).
Proof.
  unfold RegularTask.get_urgency_level, BaseTask.get_days_until_deadline.
  repeat split.
  - intros ->. reflexivity.
  - intros -> ->. reflexivity.
  - intros p -> -> ->. destruct p; reflexivity.
Qed.

Lemma regular_urgency_matches_table_witness :
  RegularTask.get_urgency_level new_year_noon (with_completed true report)
    = "completed" /\
  RegularTask.get_urgency_level new_year_noon
      (with_deadline_date (jan_1_2024 - 1) report) = "overdue" /\
  RegularTask.get_urgency_level new_year_noon report
    = spec_urgency_table High 1.
Proof.
  split; [| split].
  - apply (regular_urgency_matches_table new_year_noon (with_completed true report)).
    reflexivity.
  - apply (regular_urgency_matches_table new_year_noon
             (with_deadline_date (jan_1_2024 - 1) report)); reflexivity.
  - apply (regular_urgency_matches_table new_year_noon report); reflexivity.
Defined.

(** The table, row by row, on sample days. *)
Example urgency_high_priority :
  map (fun d => RegularTask.get_urgency_level new_year_noon
                  (with_deadline_date (jan_1_2024 + d) report)) [0; 1; 2; 3; 4]
  = ["critical"; "critical"; "high"; "high"; "medium"].
Proof. reflexivity. Qed.

Example urgency_medium_priority :
  map (fun d => RegularTask.get_urgency_level new_year_noon
                  (with_priority 2 (with_deadline_date (jan_1_2024 + d) report)))
      [0; 1; 2; 3; 5; 6]
  = ["critical"; "high"; "high"; "medium"; "medium"; "low"].
Proof. reflexivity. Qed.

Example urgency_low_priority :
  map (fun d => RegularTask.get_urgency_level new_year_noon
                  (with_priority 3 (with_deadline_date (jan_1_2024 + d) report)))
      [0; 1; 3; 4]
  = ["high"; "medium"; "medium"; "low"].
Proof. reflexivity. Qed.

(** Every call of the Recurring override returns [None]: the level it
    starts from is the result of the abstract method. *)
Lemma recurring_urgency_is_none (clk : clock) (t : Task) :
  RecurringTask.get_urgency_level clk t = None.
Proof. reflexivity. Qed.

(** C2. For a pending Recurring task of priority High due today, the Regular
    computation gives ["critical"], whose demotion is ["high"]; the call of
    [get_urgency_level] on the task returns [None] instead. *)
Theorem recurring_urgency_not_demoted :
  is_recurring standup = true /\
  spec_demote (RegularTask.get_urgency_level new_year_noon standup) = "high" /\
  get_urgency_level new_year_noon standup = None.
Proof. repeat split. Qed.

(** C3. [is_overdue] is false for a completed task; for a pending task it is
    true when the deadline date is before today, and on the deadline date
    it is true exactly when a deadline time is set and the current time is
    past it; a task due today without a deadline time is not overdue. *)
Theorem is_overdue_cases (clk : clock) (t : Task) :
  (completed t = true -> BaseTask.is_overdue clk t = false) /\
  (completed t = false -> deadline_date t < today clk ->
     BaseTask.is_overdue clk t = true) /\
  (completed t = false -> deadline_date t = today clk ->
     (BaseTask.is_overdue clk t = true <->
      exists dl, deadline_time t = Some dl /\ dl < time_now clk)) /\
  (deadline_date t = today clk -> deadline_time t = None ->
     BaseTask.is_overdue clk t = false) /\
  (today clk < deadline_date t -> BaseTask.is_overdue clk t = false).
Proof.
  unfold BaseTask.is_overdue. split; [| split; [| split; [| split]]].
  - intros ->. reflexivity.
  - intros -> Hlt. apply Z.ltb_lt in Hlt. rewrite Hlt. reflexivity.
  - intros -> ->. rewrite Z.ltb_irrefl, Z.eqb_refl.
    destruct (deadline_time t) as [dl |]; split.
    + intros Hgt. exists dl. split; [reflexivity |].
      apply Z.gtb_lt in Hgt. exact Hgt.
    + intros (dl' & Heq & Hlt). inversion Heq; subst dl'.
      apply Z.gtb_lt. exact Hlt.
    + discriminate.
    + intros (dl' & Heq & _). discriminate.
  - intros -> ->. rewrite Z.ltb_irrefl, Z.eqb_refl.
    destruct (completed t); reflexivity.
  - intros Hlt. destruct (completed t); [reflexivity |].
    destruct (Z.ltb_spec (deadline_date t) (today clk)); [lia |].
    destruct (Z.eqb_spec (deadline_date t) (today clk)); [lia |].
    reflexivity.
Qed.

Lemma is_overdue_cases_witness :
  BaseTask.is_overdue new_year_noon (with_completed true report) = false /\
  BaseTask.is_overdue new_year_noon
    (with_deadline_date (jan_1_2024 - 1) report) = true /\
  (BaseTask.is_overdue new_year_noon
     (with_deadline_time (Some nine_am) standup) = true <->
   exists dl, Some nine_am = Some dl /\ dl < noon) /\
  BaseTask.is_overdue new_year_noon standup = false /\
  BaseTask.is_overdue new_year_noon report = false.
Proof.
  split; [| split; [| split; [| split]]].
  - destruct (is_overdue_cases new_year_noon (with_completed true report))
      as (Hdone & _).
    apply Hdone. reflexivity.
  - destruct (is_overdue_cases new_year_noon
                (with_deadline_date (jan_1_2024 - 1) report))
      as (_ & Hpast & _).
    apply Hpast; reflexivity.
  - destruct (is_overdue_cases new_year_noon
                (with_deadline_time (Some nine_am) standup))
      as (_ & _ & Htoday & _).
    apply Htoday; reflexivity.
  - destruct (is_overdue_cases new_year_noon standup) as (_ & _ & _ & Hnotime & _).
    apply Hnotime; reflexivity.
  - destruct (is_overdue_cases new_year_noon report) as (_ & _ & _ & _ & Hfuture).
    apply Hfuture. reflexivity.
Defined.

Example due_today_time_passed :
  BaseTask.is_overdue new_year_noon (with_deadline_time (Some nine_am) standup)
  = true.
Proof. reflexivity. Qed.

Example due_today_time_not_reached :
  BaseTask.is_overdue (mk_clock jan_1_2024 nine_am)
    (with_deadline_time (Some noon) standup) = false.
Proof. reflexivity. Qed.

Example due_today_exactly_now :
  BaseTask.is_overdue new_year_noon (with_deadline_time (Some noon) standup)
  = false.
Proof. reflexivity. Qed.

(** ** The recurrence policy *)

(** C8. The next deadline of a Recurring task is its deadline date plus
    [interval] days for the daily unit, plus [interval] weeks (seven days
    each) for the weekly unit, and plus [30 * interval] days for the monthly
    unit, where "plus" is the addition of days to a date; whenever the sum
    is a date of the calendar, that date is returned. *)
Theorem next_deadline_by_unit (t : Task) (r : recurrence) :
  recurring t = Some r ->
  (recurrence_type r = "daily" ->
     RecurringTask.get_next_deadline t
       = date_add (deadline_date t) (recurrence_count r) /\
     (valid_date (deadline_date t + recurrence_count r) ->
      RecurringTask.get_next_deadline t
        = Ok (deadline_date t + recurrence_count r))) /\
  (recurrence_type r = "weekly" ->
     RecurringTask.get_next_deadline t
       = date_add (deadline_date t) (7 * recurrence_count r) /\
     (valid_date (deadline_date t + 7 * recurrence_count r) ->
      RecurringTask.get_next_deadline t
        = Ok (deadline_date t + 7 * recurrence_count r))) /\
  (recurrence_type r = "monthly" ->
     RecurringTask.get_next_deadline t
       = date_add (deadline_date t) (30 * recurrence_count r) /\
     (valid_date (deadline_date t + 30 * recurrence_count r) ->
      RecurringTask.get_next_deadline t
        = Ok (deadline_date t + 30 * recurrence_count r))).
Proof.
  intros Hrec. unfold RecurringTask.get_next_deadline. rewrite Hrec.
  split; [| split]; intros ->; simpl; split; try reflexivity;
    apply date_add_in_range.
Qed.

Lemma next_deadline_by_unit_witness :
  RecurringTask.get_next_deadline standup = Ok (jan_1_2024 + 3) /\
  RecurringTask.get_next_deadline
    (with_recurring (Some (mk_recurrence "weekly" 2 None)) standup)
    = Ok (jan_1_2024 + 14) /\
  RecurringTask.get_next_deadline
    (with_recurring (Some (mk_recurrence "monthly" 2 None)) standup)
    = Ok (jan_1_2024 + 60).
Proof.
  split; [| split].
  - destruct (next_deadline_by_unit standup
                (mk_recurrence "daily" 3 (Some jan_1_2024)) eq_refl)
      as (Hdaily & _).
    apply (Hdaily eq_refl). solve_valid_date.
  - destruct (next_deadline_by_unit
                (with_recurring (Some (mk_recurrence "weekly" 2 None)) standup)
                (mk_recurrence "weekly" 2 None) eq_refl)
      as (_ & Hweekly & _).
    apply (Hweekly eq_refl). solve_valid_date.
  - destruct (next_deadline_by_unit
                (with_recurring (Some (mk_recurrence "monthly" 2 None)) standup)
                (mk_recurrence "monthly" 2 None) eq_refl)
      as (_ & _ & Hmonthly).
    apply (Hmonthly eq_refl). solve_valid_date.
Defined.

Example next_deadline_unknown_unit :
  RecurringTask.get_next_deadline
    (with_recurring (Some (mk_recurrence "yearly" 1 None)) standup)
  = Ok jan_1_2024.
Proof. reflexivity. Qed.

Example next_deadline_past_last_day :
  RecurringTask.get_next_deadline (with_deadline_date dec_31_9999 standup)
  = Raise OverflowError.
Proof. reflexivity. Qed.

(** C10. A Recurring task built without a deadline date has [deadline_date]
    equal to today and [original_deadline] equal to [None], and [to_dict]
    raises on it; on a freshly built Recurring task [to_dict] returns a
    record exactly when a deadline date was given to the constructor. *)
Theorem recurring_without_deadline_to_dict {L : StrLower}
    (uuid : string) (clk : clock) (ttl desc : string) (dtime : option time)
    (prio : Z) (cat rtype : string) (rcount : Z) :
  let build := fun dd =>
    RecurringTask.__init__ uuid clk ttl desc dd dtime prio cat rtype rcount in
  deadline_date (build None) = today clk /\
  recurring (build None) = Some (mk_recurrence rtype rcount None) /\
  RecurringTask.to_dict (build None) = Raise AttributeError /\
  (forall d, exists data,
     RecurringTask.to_dict (build (Some d)) = Ok data /\
     data !! "original_deadline" = Some (IsoDate d) /\
     data !! "deadline_date" = Some (IsoDate d)) /\
  (forall dd, returns (RecurringTask.to_dict (build dd)) <-> dd <> None).
Proof.
  cbv zeta. split; [reflexivity |]. split; [reflexivity |].
  split; [reflexivity |]. split.
  - intros d. eexists. split; [reflexivity |]. split; reflexivity.
  - intros [d |]; split.
    + discriminate.
    + intros _. eexists. reflexivity.
    + intros [data Hdata]. discriminate.
    + congruence.
Qed.

Example regular_to_dict_without_deadline :
  BaseTask.to_dict
    (RegularTask.__init__ (L := ascii_lower) "id" new_year_noon "T" "" None
       None 2 "x")
    !! "deadline_date" = Some (IsoDate jan_1_2024).
Proof. reflexivity. Qed.

(** ** The store: lookup and completion *)

Lemma get_task_by_id_Some (tasks : list Task) (id : string) (i : nat) (t : Task) :
  TaskManager.get_task_by_id tasks id = Some (i, t) ->
  tasks !! i = Some t /\ task_id t = id.
Proof.
  unfold TaskManager.get_task_by_id. intros Hfind.
  apply list_find_Some in Hfind as (Hi & Hid & _). auto.
Qed.

Lemma get_task_by_id_None (tasks : list Task) (id : string) :
  TaskManager.get_task_by_id tasks id = None <->
  Forall (fun t => task_id t <> id) tasks.
Proof. unfold TaskManager.get_task_by_id. apply list_find_None. Qed.

(** With unique identifiers, a task of the store is the one its
    identifier finds. *)
Lemma get_task_by_id_unique (tasks : list Task) (i : nat) (t : Task) :
  NoDup (map task_id tasks) -> tasks !! i = Some t ->
  TaskManager.get_task_by_id tasks (task_id t) = Some (i, t).
Proof.
  intros Hnodup Hi. unfold TaskManager.get_task_by_id.
  apply list_find_Some. split; [exact Hi |]. split; [reflexivity |].
  intros j y Hj Hlt Heq.
  assert (Hji : j = i); [| lia].
  apply (NoDup_lookup (map task_id tasks) j i (task_id t)); [exact Hnodup | |].
  - rewrite list_lookup_fmap, Hj. simpl. congruence.
  - rewrite list_lookup_fmap, Hi. reflexivity.
Qed.

Lemma next_deadline_after_completion (clk : clock) (t : Task) :
  RecurringTask.get_next_deadline (BaseTask.mark_completed clk t)
  = RecurringTask.get_next_deadline t.
Proof. reflexivity. Qed.

Lemma mark_completed_absent {L : StrLower} (tasks : list Task)
    (id uuid : string) (clk : clock) :
  TaskManager.get_task_by_id tasks id = None ->
  TaskManager.mark_completed tasks id uuid clk = (tasks, Ok false).
Proof. unfold TaskManager.mark_completed. intros ->. reflexivity. Qed.

Lemma mark_completed_regular {L : StrLower} (tasks : list Task)
    (id uuid : string) (clk : clock) (i : nat) (t : Task) :
  TaskManager.get_task_by_id tasks id = Some (i, t) ->
  recurring t = None ->
  TaskManager.mark_completed tasks id uuid clk
  = (<[i := BaseTask.mark_completed clk t]> tasks, Ok true).
Proof.
  unfold TaskManager.mark_completed. intros -> Hreg.
  unfold is_recurring. simpl. rewrite Hreg. reflexivity.
Qed.

(** When the next deadline is past the last date of the calendar, the
    completion is recorded, nothing is appended and the error propagates. *)
Lemma mark_completed_recurring_overflow {L : StrLower} (tasks : list Task)
    (id uuid : string) (clk : clock) (i : nat) (t : Task) (r : recurrence)
    (e : exn) :
  TaskManager.get_task_by_id tasks id = Some (i, t) ->
  recurring t = Some r ->
  RecurringTask.get_next_deadline t = Raise e ->
  TaskManager.mark_completed tasks id uuid clk
  = (<[i := BaseTask.mark_completed clk t]> tasks, Raise e).
Proof.
  unfold TaskManager.mark_completed. intros -> Hrec Hnext.
  unfold is_recurring, TaskManager._handle_recurring_task_completion.
  simpl. rewrite Hrec, next_deadline_after_completion, Hnext. reflexivity.
Qed.

(** The next deadline of a task with recurrence settings is a date or the
    overflow of the calendar. *)
Lemma get_next_deadline_cases (t : Task) (r : recurrence) :
  recurring t = Some r ->
  (exists next, RecurringTask.get_next_deadline t = Ok next) \/
  RecurringTask.get_next_deadline t = Raise OverflowError.
Proof.
  intros Hrec. unfold RecurringTask.get_next_deadline. rewrite Hrec.
  assert (Hadd : forall n,
            (exists next, date_add (deadline_date t) n = Ok next) \/
            date_add (deadline_date t) n = Raise OverflowError).
  { intros n. unfold date_add. cbv zeta.
    destruct ((MINORD <=? deadline_date t + n)
              && (deadline_date t + n <=? MAXORD));
      [left; eexists; reflexivity | right; reflexivity]. }
  destruct (String.eqb (recurrence_type r) "daily"); [apply Hadd |].
  destruct (String.eqb (recurrence_type r) "weekly"); [apply Hadd |].
  destruct (String.eqb (recurrence_type r) "monthly"); [apply Hadd |].
  left. eexists. reflexivity.
Qed.

(** C4. Completing a Recurring task through the store marks it completed in
    place, leaving its other fields as they were.  [next_deadline()] of the
    task returns a date or raises [OverflowError].  When it returns a date,
    the call returns [True] and appends exactly one new Recurring task: due
    on that date, with the same title, description, priority, deadline time
    and recurrence settings, the category as [str.lower()] gives it (the
    same category when lower-casing leaves it as it is), not completed, and
    with the identifier that [uuid4()] returned; when that identifier is not
    already in the store, no other task has it and looking it up finds the
    new task.  When it raises, the completion is still recorded, nothing is
    appended and the error propagates. *)
Theorem mark_completed_recurring_spawns_next {L : StrLower}
    (tasks : list Task) (i : nat) (t : Task) (r : recurrence)
    (uuid : string) (clk : clock) :
  TaskManager.get_task_by_id tasks (task_id t) = Some (i, t) ->
  recurring t = Some r ->
  let finished := with_completed_at (Some (now clk)) (with_completed true t) in
  (forall next, RecurringTask.get_next_deadline t = Ok next ->
     let spawned :=
       {| task_id := uuid;
          title := title t;
          description := description t;
          deadline_date := next;
          deadline_time := deadline_time t;
          priority := priority t;
          category := str_lower (category t);
          completed := false;
          created_at := now clk;
          completed_at := None;
          recurring :=
            Some (mk_recurrence (recurrence_type r) (recurrence_count r)
                    (Some next))
       |} in
     TaskManager.mark_completed tasks (task_id t) uuid clk
       = (<[i := finished]> tasks ++ [spawned], Ok true) /\
     (<[i := finished]> tasks ++ [spawned]) !! i = Some finished /\
     (<[i := finished]> tasks ++ [spawned]) !! length tasks = Some spawned /\
     length (<[i := finished]> tasks ++ [spawned]) = S (length tasks) /\
     (forall j, j <> i -> (j < length tasks)%nat ->
        (<[i := finished]> tasks ++ [spawned]) !! j = tasks !! j) /\
     RecurringTask.get_next_deadline finished = Ok (deadline_date spawned) /\
     (str_lower (category t) = category t -> category spawned = category t) /\
     (Forall (fun x => task_id x <> uuid) tasks ->
        Forall (fun x => task_id x <> task_id spawned) (<[i := finished]> tasks) /\
        TaskManager.get_task_by_id (<[i := finished]> tasks ++ [spawned]) uuid
        = Some (length tasks, spawned))) /\
  (forall e, RecurringTask.get_next_deadline t = Raise e ->
     TaskManager.mark_completed tasks (task_id t) uuid clk
       = (<[i := finished]> tasks, Raise e) /\
     <[i := finished]> tasks !! i = Some finished /\
     length (<[i := finished]> tasks) = length tasks /\
     (forall j, j <> i -> <[i := finished]> tasks !! j = tasks !! j)) /\
  ((exists next, RecurringTask.get_next_deadline t = Ok next) \/
   RecurringTask.get_next_deadline t = Raise OverflowError) /\
  task_id finished = task_id t /\
  title finished = title t /\
  description finished = description t /\
  deadline_date finished = deadline_date t /\
  deadline_time finished = deadline_time t /\
  priority finished = priority t /\
  category finished = category t /\
  created_at finished = created_at t /\
  recurring finished = recurring t /\
  completed finished = true /\
  completed_at finished = Some (now clk).
Proof.
  intros Hfind Hrec finished.
  pose proof (get_task_by_id_Some _ _ _ _ Hfind) as [Hi _].
  assert (Hlt : (i < length tasks)%nat) by (eapply lookup_lt_Some; eauto).
  split; [| split; [| split; [| repeat split]]].
  - intros next Hnext spawned.
    split; [| split; [| split; [| split; [| split; [| split; [| split]]]]]].
    + unfold TaskManager.mark_completed. rewrite Hfind.
      unfold is_recurring, TaskManager._handle_recurring_task_completion.
      simpl. rewrite Hrec, next_deadline_after_completion, Hnext. reflexivity.
    + rewrite lookup_app_l by (rewrite length_insert; exact Hlt).
      apply list_lookup_insert_eq. exact Hlt.
    + rewrite lookup_app_r by (rewrite length_insert; lia).
      rewrite length_insert, Nat.sub_diag. reflexivity.
    + rewrite length_app, length_insert. simpl. lia.
    + intros j Hne Hj.
      rewrite lookup_app_l by (rewrite length_insert; exact Hj).
      apply list_lookup_insert_ne. congruence.
    + exact Hnext.
    + intros Hcat. exact Hcat.
    + intros Hfresh.
      assert (Hfresh' : Forall (fun x => task_id x <> uuid)
                          (<[i := finished]> tasks)).
      { apply Forall_insert; [exact Hfresh |]. simpl.
        rewrite Forall_forall in Hfresh. apply Hfresh.
        eapply list_elem_of_lookup_2. exact Hi. }
      split; [exact Hfresh' |].
      pose proof (proj2 (get_task_by_id_None _ _) Hfresh') as Hnone.
      unfold TaskManager.get_task_by_id in *.
      rewrite (list_find_app_r _ _ _ Hnone), length_insert.
      simpl. rewrite decide_True by reflexivity. simpl.
      reflexivity.
  - intros e Hnext. split; [| split; [| split]].
    + apply (mark_completed_recurring_overflow tasks (task_id t) uuid clk i t r e);
        assumption.
    + apply list_lookup_insert_eq. exact Hlt.
    + apply length_insert.
    + intros j Hne. apply list_lookup_insert_ne. congruence.
  - exact (get_next_deadline_cases t r Hrec).
Qed.

(** The example of the specification: daily, every three days, due
    2024-01-01; the next instance is due 2024-01-04. *)
Lemma mark_completed_recurring_spawns_next_witness :
  TaskManager.mark_completed (L := ascii_lower) [report; standup]
    "id-standup" "id-next" new_year_noon
  = ([ report;
       with_completed_at (Some (now new_year_noon)) (with_completed true standup);
       {| task_id := "id-next";
          title := "Standup";
          description := "";
          deadline_date := jan_1_2024 + 3;
          deadline_time := None;
          priority := 1;
          category := "kerja";
          completed := false;
          created_at := now new_year_noon;
          completed_at := None;
          recurring := Some (mk_recurrence "daily" 3 (Some (jan_1_2024 + 3))) |} ],
     Ok true).
Proof.
  destruct (mark_completed_recurring_spawns_next (L := ascii_lower)
              [report; standup] 1%nat standup
              (mk_recurrence "daily" 3 (Some jan_1_2024)) "id-next"
              new_year_noon eq_refl eq_refl) as [Hnext _].
  destruct (Hnext (jan_1_2024 + 3) eq_refl) as [Hrun _].
  exact Hrun.
Defined.

Example mark_completed_unknown_id :
  TaskManager.mark_completed (L := ascii_lower) [report; standup]
    "no-such-id" "id-next" new_year_noon
  = ([report; standup], Ok false).
Proof. reflexivity. Qed.

Example mark_completed_last_day_of_calendar :
  TaskManager.mark_completed (L := ascii_lower)
    [with_deadline_date dec_31_9999 standup] "id-standup" "id-next"
    new_year_noon
  = ([BaseTask.mark_completed new_year_noon
        (with_deadline_date dec_31_9999 standup)],
     Raise OverflowError).
Proof. reflexivity. Qed.

(** Three runs of [mark_completed] on a Recurring task.  A stand-up is added
    with the category ["kerja"] and re-filed under ["Kerja"] by
    [update_task]: completing it appends a task whose category is
    ["kerja"].  A stand-up due on 9999-12-31 has no next deadline:
    completing it records the completion, appends nothing and raises
    [OverflowError].  And when [uuid4()] returns an identifier that is
    already in the store, the appended task carries it all the same, and
    looking the identifier up still finds the older task. *)
Lemma spawned_task_not_as_claimed :
  (let added :=
     fst (TaskManager.add_task (L := ascii_lower) [] "id-standup" new_year_noon
            "Standup" "" (Some jan_1_2024) None 1 "kerja" "recurring"
            (Some "daily") (Some 3)) in
   let tasks :=
     fst (TaskManager.update_task added "id-standup" [set_category "Kerja"]) in
   exists t finished spawned,
     TaskManager.get_task_by_id tasks "id-standup" = Some (0%nat, t) /\
     is_recurring t = true /\
     RecurringTask.get_next_deadline t = Ok (jan_1_2024 + 3) /\
     TaskManager.mark_completed (L := ascii_lower) tasks "id-standup" "id-next"
       new_year_noon
       = ([finished; spawned], Ok true) /\
     category finished = "Kerja" /\
     category spawned = "kerja" /\
     category spawned <> category t) /\
  (let tasks := [with_deadline_date dec_31_9999 standup] in
   exists t finished,
     TaskManager.get_task_by_id tasks "id-standup" = Some (0%nat, t) /\
     is_recurring t = true /\
     TaskManager.mark_completed (L := ascii_lower) tasks "id-standup" "id-next"
       new_year_noon
       = ([finished], Raise OverflowError) /\
     completed finished = true) /\
  (let tasks := [report; standup] in
   exists finished spawned,
     TaskManager.mark_completed (L := ascii_lower) tasks "id-standup"
       "id-report" new_year_noon
       = ([report; finished; spawned], Ok true) /\
     task_id spawned = task_id report /\
     TaskManager.get_task_by_id [report; finished; spawned] (task_id spawned)
       = Some (0%nat, report)).
Proof.
  cbv zeta. split; [| split].
  - do 3 eexists.
    split; [reflexivity |]. split; [reflexivity |]. split; [reflexivity |].
    split; [reflexivity |]. split; [reflexivity |]. split; [reflexivity |].
    discriminate.
  - do 2 eexists.
    split; [reflexivity |]. split; [reflexivity |]. split; reflexivity.
  - do 2 eexists. split; [reflexivity |]. split; reflexivity.
Qed.

(** ** The completion invariant *)

Section CompletionInvariant.

Context {L : StrLower}.

Lemma init_consistent (uuid : string) (clk : clock) (ttl desc : string)
    (dd : option date) (dt : option time) (p : Z) (cat : string) :
  completion_consistent (BaseTask.__init__ uuid clk ttl desc dd dt p cat).
Proof. split; [discriminate | intros Hne; contradiction Hne; reflexivity]. Qed.

Lemma recurring_init_consistent (uuid : string) (clk : clock)
    (ttl desc : string) (dd : option date) (dt : option time) (p : Z)
    (cat rtype : string) (rcount : Z) :
  completion_consistent
    (RecurringTask.__init__ uuid clk ttl desc dd dt p cat rtype rcount).
Proof. split; [discriminate | intros Hne; contradiction Hne; reflexivity]. Qed.

Lemma mark_completed_consistent (clk : clock) (t : Task) :
  completion_consistent (BaseTask.mark_completed clk t).
Proof. split; [discriminate | reflexivity]. Qed.

Lemma reset_consistent (t t' : Task) :
  RecurringTask.reset_for_next_cycle t = Ok t' -> completion_consistent t'.
Proof.
  unfold RecurringTask.reset_for_next_cycle.
  destruct (RecurringTask.get_next_deadline t) as [d | e]; simpl;
    intros Heq; inversion Heq; subst.
  split; [discriminate | intros Hne; contradiction Hne; reflexivity].
Qed.

Lemma setattr_keeps_completion (u : field_update) (t : Task) :
  touches_completion u = false ->
  completed (setattr_if_present u t) = completed t /\
  completed_at (setattr_if_present u t) = completed_at t.
Proof.
  destruct u; simpl; try discriminate; intros _; try (split; reflexivity);
    destruct (recurring t); split; reflexivity.
Qed.

Lemma setattr_fold_consistent (kwargs : list field_update) (t : Task) :
  forallb (fun u => negb (touches_completion u)) kwargs = true ->
  completion_consistent t ->
  completion_consistent
    (fold_left (fun t u => setattr_if_present u t) kwargs t).
Proof.
  revert t. induction kwargs as [| u kwargs IH]; intros t Hall Ht; simpl.
  - exact Ht.
  - simpl in Hall. apply andb_prop in Hall as [Hu Hall].
    apply negb_true_iff in Hu. apply IH; [exact Hall |].
    destruct (setattr_keeps_completion u t Hu) as [Hc Hat].
    unfold completion_consistent in *. rewrite Hc, Hat. exact Ht.
Qed.

Lemma Forall_List_filter {A : Type} (P : A -> Prop) (f : A -> bool)
    (l : list A) :
  Forall P l -> Forall P (List.filter f l).
Proof.
  induction 1 as [| x l Hx Hl IH]; simpl; [constructor |].
  destruct (f x); [constructor; assumption | assumption].
Qed.

Variable tasks : list Task.
Hypothesis tasks_consistent : Forall completion_consistent tasks.

Lemma add_task_consistent (uuid : string) (clk : clock) (ttl desc : string)
    (dd : option date) (dt : option time) (p : Z) (cat task_type : string)
    (rtype : option string) (rcount : option Z) :
  Forall completion_consistent
    (fst (TaskManager.add_task tasks uuid clk ttl desc dd dt p cat task_type
            rtype rcount)).
Proof.
  unfold TaskManager.add_task. simpl. apply Forall_app. split;
    [exact tasks_consistent |].
  constructor; [| constructor].
  destruct (String.eqb task_type "recurring");
    [apply recurring_init_consistent | apply init_consistent].
Qed.

Lemma store_mark_completed_consistent (id uuid : string) (clk : clock) :
  Forall completion_consistent
    (fst (TaskManager.mark_completed tasks id uuid clk)).
Proof.
  unfold TaskManager.mark_completed.
  destruct (TaskManager.get_task_by_id tasks id) as [[i t] |];
    [| exact tasks_consistent].
  assert (Hmarked : Forall completion_consistent
                      (<[i := BaseTask.mark_completed clk t]> tasks)).
  { apply Forall_insert;
      [exact tasks_consistent | apply mark_completed_consistent]. }
  destruct (is_recurring (BaseTask.mark_completed clk t)); [| exact Hmarked].
  unfold TaskManager._handle_recurring_task_completion.
  destruct (recurring (BaseTask.mark_completed clk t)) as [r |];
    [| exact Hmarked].
  destruct (RecurringTask.get_next_deadline (BaseTask.mark_completed clk t))
    as [d | e]; simpl; [| exact Hmarked].
  apply Forall_app. split; [exact Hmarked |].
  constructor; [apply recurring_init_consistent | constructor].
Qed.

Lemma delete_task_consistent (id : string) :
  Forall completion_consistent (fst (TaskManager.delete_task tasks id)).
Proof.
  unfold TaskManager.delete_task.
  destruct (TaskManager.get_task_by_id tasks id) as [[i t] |]; simpl;
    [| exact tasks_consistent].
  apply Forall_delete. exact tasks_consistent.
Qed.

Lemma update_task_consistent (id : string) (kwargs : list field_update) :
  forallb (fun u => negb (touches_completion u)) kwargs = true ->
  Forall completion_consistent (fst (TaskManager.update_task tasks id kwargs)).
Proof.
  intros Hkw. unfold TaskManager.update_task.
  destruct (TaskManager.get_task_by_id tasks id) as [[i t] |] eqn:Hfind;
    simpl; [| exact tasks_consistent].
  apply Forall_insert; [exact tasks_consistent |].
  apply setattr_fold_consistent; [exact Hkw |].
  apply get_task_by_id_Some in Hfind as [Hi _].
  rewrite Forall_forall in tasks_consistent. apply tasks_consistent.
  eapply list_elem_of_lookup_2. exact Hi.
Qed.

Lemma cleanup_consistent (clk : clock) (days_old : Z)
    (tasks' : list Task) (removed : Z) :
  TaskManager.cleanup_completed_tasks clk tasks days_old = Ok (tasks', removed) ->
  Forall completion_consistent tasks'.
Proof.
  unfold TaskManager.cleanup_completed_tasks.
  destruct (datetime_sub_days (now clk) days_old) as [cutoff | e]; simpl;
    intros Heq; inversion Heq; subst.
  apply Forall_List_filter. exact tasks_consistent.
Qed.

End CompletionInvariant.

(** C5. [completed_at] is set exactly when [completed] is true: at
    construction, after the task's own [mark_completed], after a Recurring
    task's reset, and after the store's [add_task], [mark_completed],
    [delete_task] and [cleanup_completed_tasks] on a store where it held;
    [update_task] keeps it when no keyword assigns [completed] or
    [completed_at]. *)
Theorem completion_invariant_preserved {L : StrLower} :
  (forall uuid clk ttl desc dd dt p cat,
     completion_consistent (BaseTask.__init__ uuid clk ttl desc dd dt p cat)) /\
  (forall uuid clk ttl desc dd dt p cat rtype rcount,
     completion_consistent
       (RecurringTask.__init__ uuid clk ttl desc dd dt p cat rtype rcount)) /\
  (forall clk t, completion_consistent (BaseTask.mark_completed clk t)) /\
  (forall t t',
     RecurringTask.reset_for_next_cycle t = Ok t' -> completion_consistent t') /\
  (forall tasks, Forall completion_consistent tasks ->
     (forall uuid clk ttl desc dd dt p cat task_type rtype rcount,
        Forall completion_consistent
          (fst (TaskManager.add_task tasks uuid clk ttl desc dd dt p cat
                  task_type rtype rcount))) /\
     (forall id uuid clk,
        Forall completion_consistent
          (fst (TaskManager.mark_completed tasks id uuid clk))) /\
     (forall id,
        Forall completion_consistent (fst (TaskManager.delete_task tasks id))) /\
     (forall id kwargs,
        forallb (fun u => negb (touches_completion u)) kwargs = true ->
        Forall completion_consistent
          (fst (TaskManager.update_task tasks id kwargs))) /\
     (forall clk days_old tasks' removed,
        TaskManager.cleanup_completed_tasks clk tasks days_old
          = Ok (tasks', removed) ->
        Forall completion_consistent tasks')).
Proof.
  split; [exact init_consistent |].
  split; [exact recurring_init_consistent |].
  split; [exact mark_completed_consistent |].
  split; [exact reset_consistent |].
  intros tasks Htasks.
  split; [exact (add_task_consistent tasks Htasks) |].
  split; [exact (store_mark_completed_consistent tasks Htasks) |].
  split; [exact (delete_task_consistent tasks Htasks) |].
  split; [exact (update_task_consistent tasks Htasks) |].
  exact (cleanup_consistent tasks Htasks).
Qed.

Lemma sample_store_consistent : Forall completion_consistent [report; standup].
Proof.
  repeat constructor; try discriminate;
    intros Hne; contradiction Hne; reflexivity.
Qed.

Lemma completion_invariant_preserved_witness :
  Forall completion_consistent
    (fst (TaskManager.update_task [report; standup] "id-report"
            [set_priority 3; set_category "Rumah"])) /\
  Forall completion_consistent
    (fst (TaskManager.mark_completed (L := ascii_lower) [report; standup]
            "id-standup" "id-next" new_year_noon)) /\
  completion_consistent
    (with_completed_at None
       (with_completed false
          (with_deadline_date (jan_1_2024 + 3)
             (BaseTask.mark_completed new_year_noon standup)))).
Proof.
  destruct (completion_invariant_preserved (L := ascii_lower))
    as (_ & _ & _ & Hreset & Hstore).
  destruct (Hstore [report; standup] sample_store_consistent)
    as (_ & Hmark & _ & Hupdate & _).
  split; [| split].
  - apply Hupdate. reflexivity.
  - apply Hmark.
  - apply (Hreset (BaseTask.mark_completed new_year_noon standup)).
    reflexivity.
Defined.

(** [update_task] writes [completed] as it is given and leaves
    [completed_at] alone: the invariant held before the call and fails
    after it. *)
Lemma update_task_breaks_completion_invariant :
  Forall completion_consistent [report] /\
  TaskManager.update_task [report] "id-report" [set_completed true]
    = ([with_completed true report], true) /\
  completed (with_completed true report) = true /\
  completed_at (with_completed true report) = None /\
  ~ Forall completion_consistent
      (fst (TaskManager.update_task [report] "id-report" [set_completed true])).
Proof.
  split; [| split; [reflexivity | split; [reflexivity | split; [reflexivity |]]]].
  - repeat constructor; try discriminate.
    intros Hne; contradiction Hne; reflexivity.
  - intros Hall. apply Forall_inv in Hall. destruct Hall as [Hset _].
    apply (Hset eq_refl). reflexivity.
Qed.

(** ** Sorting: the result is an ordered rearrangement *)

Section SortingFacts.
Context {A K : Type} (lt : K -> K -> bool) (le : K -> K -> Prop)
  (key : A -> K).
Hypothesis lt_le : forall a b, lt a b = true -> le a b.
Hypothesis not_lt_le : forall a b, lt a b = false -> le b a.
Hypothesis le_trans : forall a b c, le a b -> le b c -> le a c.

Let ordered (x y : A) : Prop := le (key x) (key y).

Lemma insert_sorted_perm (x : A) (l : list A) :
  insert_sorted lt key x l ≡ₚ x :: l.
Proof.
  induction l as [| y l IH]; simpl; [reflexivity |].
  destruct (lt (key y) (key x)); [| reflexivity].
  rewrite IH. apply perm_swap.
Qed.

Lemma py_sorted_perm (l : list A) : py_sorted lt key l ≡ₚ l.
Proof.
  induction l as [| x l IH]; simpl; [reflexivity |].
  rewrite insert_sorted_perm, IH. reflexivity.
Qed.

Lemma insert_sorted_ordered (x : A) (l : list A) :
  StronglySorted ordered l -> StronglySorted ordered (insert_sorted lt key x l).
Proof.
  induction 1 as [| y l Hl IH Hy]; simpl.
  - constructor; constructor.
  - destruct (lt (key y) (key x)) eqn:Hlt.
    + constructor; [exact IH |].
      rewrite insert_sorted_perm. constructor; [| exact Hy].
      apply lt_le. exact Hlt.
    + assert (Hxy : ordered x y) by (apply not_lt_le; exact Hlt).
      constructor; [constructor; assumption |].
      constructor; [exact Hxy |].
      eapply Forall_impl; [exact Hy |].
      intros z Hyz. eapply le_trans; eassumption.
Qed.

Lemma py_sorted_ordered (l : list A) :
  StronglySorted ordered (py_sorted lt key l).
Proof.
  induction l as [| x l IH]; simpl; [constructor |].
  apply insert_sorted_ordered. exact IH.
Qed.

Lemma elem_of_py_sorted (x : A) (l : list A) :
  x ∈ py_sorted lt key l <-> x ∈ l.
Proof. rewrite py_sorted_perm. reflexivity. Qed.

(** Stability: the elements selected by [f], none of which is below
    another, keep their order. *)
Lemma insert_sorted_stable (f : A -> bool) (x : A) (l : list A) :
  (forall y, f y = true -> lt (key y) (key x) = false) ->
  List.filter f (insert_sorted lt key x l) = List.filter f (x :: l).
Proof.
  intros Hf. induction l as [| y l IH]; [reflexivity |].
  simpl. destruct (lt (key y) (key x)) eqn:Hlt; [| reflexivity].
  simpl. rewrite IH. simpl.
  destruct (f y) eqn:Hy; [| reflexivity].
  rewrite (Hf y Hy) in Hlt. discriminate.
Qed.

Lemma insert_sorted_filtered_out (f : A -> bool) (x : A) (l : list A) :
  f x = false ->
  List.filter f (insert_sorted lt key x l) = List.filter f l.
Proof.
  intros Hx. induction l as [| y l IH]; simpl.
  - rewrite Hx. reflexivity.
  - destruct (lt (key y) (key x)); simpl.
    + rewrite IH. reflexivity.
    + rewrite Hx. reflexivity.
Qed.

Lemma py_sorted_stable (f : A -> bool) (l : list A) :
  (forall x y, f x = true -> f y = true -> lt (key y) (key x) = false) ->
  List.filter f (py_sorted lt key l) = List.filter f l.
Proof.
  intros Hf. induction l as [| x l IH]; [reflexivity |]. simpl.
  destruct (f x) eqn:Hx.
  - rewrite insert_sorted_stable by (intros y Hy; apply Hf; assumption).
    simpl. rewrite Hx, IH. reflexivity.
  - rewrite insert_sorted_filtered_out by exact Hx. exact IH.
Qed.

End SortingFacts.

Lemma StronglySorted_filter {A : Type} (R : A -> A -> Prop) (f : A -> bool)
    (l : list A) :
  StronglySorted R l -> StronglySorted R (List.filter f l).
Proof.
  induction 1 as [| x l Hl IH Hx]; simpl; [constructor |].
  destruct (f x); [| exact IH].
  constructor; [exact IH |]. apply Forall_List_filter. exact Hx.
Qed.

Lemma elem_of_List_filter {A : Type} (f : A -> bool) (x : A) (l : list A) :
  x ∈ List.filter f l <-> x ∈ l /\ f x = true.
Proof. rewrite !list_elem_of_In. apply filter_In. Qed.

Lemma pair_ltb_le (a b : Z * Z) : pair_ltb a b = true -> pair_le a b.
Proof.
  unfold pair_ltb, pair_le. intros Hlt.
  apply orb_prop in Hlt as [Hlt | Hlt].
  - left. apply Z.ltb_lt. exact Hlt.
  - apply andb_prop in Hlt as [Heq Hlt]. right.
    apply Z.eqb_eq in Heq. apply Z.ltb_lt in Hlt. lia.
Qed.

Lemma pair_not_ltb_le (a b : Z * Z) : pair_ltb a b = false -> pair_le b a.
Proof.
  unfold pair_ltb, pair_le. intros Hlt.
  apply orb_false_elim in Hlt as [Hlt Hlt'].
  apply Z.ltb_ge in Hlt.
  apply andb_false_iff in Hlt' as [Hne | Hge].
  - apply Z.eqb_neq in Hne. lia.
  - apply Z.ltb_ge in Hge. lia.
Qed.

Lemma pair_le_trans (a b c : Z * Z) : pair_le a b -> pair_le b c -> pair_le a c.
Proof. unfold pair_le. lia. Qed.

Lemma py_sorted_ascending (key : Task -> Z * Z) (l : list Task) :
  ascending key (py_sorted pair_ltb key l).
Proof.
  apply (py_sorted_ordered pair_ltb pair_le key);
    [exact pair_ltb_le | exact pair_not_ltb_le | exact pair_le_trans].
Qed.

(** Tasks with one and the same key come out in the order of the input. *)
Lemma py_sorted_keeps_order_of_equal_keys (key : Task -> Z * Z) (k : Z * Z)
    (l : list Task) :
  let same_key := fun t => (fst (key t) =? fst k) && (snd (key t) =? snd k) in
  List.filter same_key (py_sorted pair_ltb key l) = List.filter same_key l.
Proof.
  intros same_key. apply py_sorted_stable. intros x y Hx Hy.
  unfold same_key in Hx, Hy.
  apply andb_prop in Hx as [Hx1 Hx2]. apply andb_prop in Hy as [Hy1 Hy2].
  apply Z.eqb_eq in Hx1, Hx2, Hy1, Hy2.
  unfold pair_ltb. rewrite Hx1, Hx2, Hy1, Hy2, !Z.ltb_irrefl, andb_false_r.
  reflexivity.
Qed.

Example sorted_is_stable :
  map title
    (py_sorted pair_ltb urgent_key
       [with_title "b" report; with_title "a" report;
        with_title "c" (with_deadline_date jan_1_2024 report)])
  = ["c"; "b"; "a"].
Proof. reflexivity. Qed.

(** ** The reminder aggregator *)

Lemma first_occurrence_nil (t : Task) : ~ first_occurrence t [].
Proof. intros (l1 & l2 & Heq & _). destruct l1; discriminate. Qed.

Lemma first_occurrence_cons (t x : Task) (l : list Task) :
  first_occurrence t (x :: l) <->
  t = x \/ (task_id x <> task_id t /\ first_occurrence t l).
Proof.
  split.
  - intros (l1 & l2 & Heq & Hbefore). destruct l1 as [| y l1]; simpl in Heq.
    + left. congruence.
    + right. inversion Heq; subst. apply Forall_cons in Hbefore as [Hy Hl1].
      split; [exact Hy |]. exists l1, l2. auto.
  - intros [-> | (Hne & l1 & l2 & -> & Hbefore)].
    + exists [], l. split; [reflexivity | constructor].
    + exists (x :: l1), l2. split; [reflexivity |].
      constructor; assumption.
Qed.

Lemma first_occurrence_elem_of (t : Task) (l : list Task) :
  first_occurrence t l -> t ∈ l.
Proof. intros (l1 & l2 & -> & _). set_solver. Qed.

(** Every identifier present in a list has a first occurrence. *)
Lemma first_occurrence_exists (t : Task) (l : list Task) :
  t ∈ l -> exists t', first_occurrence t' l /\ task_id t' = task_id t.
Proof.
  induction l as [| x l IH]; intros Hin; [set_solver |].
  destruct (decide (task_id x = task_id t)) as [Heq | Hne].
  - exists x. split; [| exact Heq]. apply first_occurrence_cons. auto.
  - apply elem_of_cons in Hin as [-> | Hin]; [congruence |].
    destruct (IH Hin) as (t' & Hfirst & Hid). exists t'. split; [| exact Hid].
    apply first_occurrence_cons. right. split; [congruence | exact Hfirst].
Qed.

Lemma first_occurrence_unique_ids (t : Task) (l : list Task) :
  NoDup (map task_id l) -> t ∈ l -> first_occurrence t l.
Proof.
  induction l as [| x l IH]; intros Hnodup Hin; [set_solver |].
  simpl in Hnodup. apply NoDup_cons in Hnodup as [Hx Hnodup].
  apply first_occurrence_cons.
  apply elem_of_cons in Hin as [-> | Hin]; [left; reflexivity |].
  right. split; [| apply IH; assumption].
  intros Heq. apply Hx. rewrite Heq.
  apply (list_elem_of_fmap_2 task_id). exact Hin.
Qed.

Lemma elem_of_remove_duplicates (seen : gset string) (t : Task) (l : list Task) :
  t ∈ ReminderSystem.remove_duplicates seen l <->
  (task_id t ∉ seen) /\ first_occurrence t l.
Proof.
  revert seen. induction l as [| x l IH]; intros seen; simpl.
  - split; [set_solver |]. intros [_ Hfirst].
    destruct (first_occurrence_nil t Hfirst).
  - rewrite first_occurrence_cons. destruct (decide (task_id x ∈ seen)) as [Hx | Hx].
    + rewrite IH. split.
      * intros [Ht Hfirst]. split; [exact Ht |]. right. split; [| exact Hfirst].
        intros Heq. apply Ht. rewrite <- Heq. exact Hx.
      * intros [Ht [-> | [_ Hfirst]]]; [contradiction | auto].
    + rewrite elem_of_cons, IH. split.
      * intros [-> | [Ht Hfirst]]; [auto |].
        rewrite elem_of_union, elem_of_singleton in Ht.
        split; [tauto |]. right. split; [| exact Hfirst].
        intros Heq. apply Ht. left. congruence.
      * intros [Ht [-> | [Hne Hfirst]]]; [auto |].
        right. split; [| exact Hfirst].
        rewrite elem_of_union, elem_of_singleton.
        intros [Heq | Hseen]; [congruence | contradiction].
Qed.

Lemma remove_duplicates_NoDup (seen : gset string) (l : list Task) :
  NoDup (map task_id (ReminderSystem.remove_duplicates seen l)).
Proof.
  revert seen. induction l as [| x l IH]; intros seen; simpl; [constructor |].
  destruct (decide (task_id x ∈ seen)) as [Hx | Hx]; [apply IH |].
  simpl. apply NoDup_cons. split; [| apply IH].
  intros Hin. apply list_elem_of_fmap in Hin as (t & Hid & Hin).
  apply elem_of_remove_duplicates in Hin as [Hnot _].
  apply Hnot. rewrite elem_of_union, elem_of_singleton. left. congruence.
Qed.

(** Membership in the two lists [get_urgent_reminders] concatenates. *)
Lemma elem_of_urgent_candidates (clk : clock) (self : Reminder) (t : Task) :
  t ∈ ReminderSystem.today_tasks clk self
      ++ TaskManager.get_overdue_tasks clk (task_manager self) <->
  t ∈ task_manager self /\
  ((completed t = false /\ deadline_date t = today clk) \/
   BaseTask.is_overdue clk t = true).
Proof.
  unfold ReminderSystem.today_tasks, TaskManager.get_pending_tasks,
    TaskManager.get_overdue_tasks.
  rewrite elem_of_app, !elem_of_List_filter, negb_true_iff, Z.eqb_eq. tauto.
Qed.

(** C6. [get_urgent_reminders] returns the pending tasks due today together
    with the overdue tasks: each identifier occurs at most once, the task
    kept for an identifier is its first occurrence in the list "due today,
    then overdue", and the result is in ascending order of
    [(deadline_date, priority)], so that priority 1 comes first on a date. *)
Theorem urgent_reminders_union_dedup_sorted (clk : clock) (self : Reminder) :
  let candidates :=
    ReminderSystem.today_tasks clk self
      ++ TaskManager.get_overdue_tasks clk (task_manager self) in
  let urgent := ReminderSystem.get_urgent_reminders clk self in
  NoDup (map task_id urgent) /\
  ascending urgent_key urgent /\
  (forall t, t ∈ urgent <-> first_occurrence t candidates) /\
  (forall t, t ∈ urgent ->
     t ∈ task_manager self /\
     ((completed t = false /\ deadline_date t = today clk) \/
      BaseTask.is_overdue clk t = true)) /\
  (forall t, t ∈ task_manager self ->
     (completed t = false /\ deadline_date t = today clk) \/
     BaseTask.is_overdue clk t = true ->
     exists t', t' ∈ urgent /\ task_id t' = task_id t) /\
  (NoDup (map task_id (task_manager self)) ->
   forall t, t ∈ urgent <->
     t ∈ task_manager self /\
     ((completed t = false /\ deadline_date t = today clk) \/
      BaseTask.is_overdue clk t = true)).
Proof.
  intros candidates urgent.
  assert (Hmem : forall t, t ∈ urgent <-> first_occurrence t candidates).
  { intros t. unfold urgent, ReminderSystem.get_urgent_reminders.
    rewrite elem_of_py_sorted, elem_of_remove_duplicates.
    split; [intros [_ Hfirst]; exact Hfirst |].
    intros Hfirst. split; [apply not_elem_of_empty | exact Hfirst]. }
  split; [| split; [| split; [exact Hmem | split; [| split]]]].
  - unfold urgent, ReminderSystem.get_urgent_reminders.
    rewrite py_sorted_perm. apply remove_duplicates_NoDup.
  - apply py_sorted_ascending.
  - intros t Hin. apply elem_of_urgent_candidates.
    apply first_occurrence_elem_of, Hmem, Hin.
  - intros t Hin Hurgent.
    assert (Hcand : t ∈ candidates)
      by (apply elem_of_urgent_candidates; auto).
    destruct (first_occurrence_exists t candidates Hcand) as (t' & Hfirst & Hid).
    exists t'. split; [apply Hmem; exact Hfirst | exact Hid].
  - intros Hnodup t. rewrite Hmem, <- elem_of_urgent_candidates. split.
    + apply first_occurrence_elem_of.
    + intros Hcand.
      destruct (first_occurrence_exists t candidates Hcand) as (t' & Hfirst & Hid).
      assert (Ht' : t' ∈ candidates) by (apply first_occurrence_elem_of; exact Hfirst).
      assert (t' = t); [| subst; exact Hfirst].
      apply elem_of_urgent_candidates in Hcand as [Hin _].
      apply elem_of_urgent_candidates in Ht' as [Hin' _].
      apply list_elem_of_lookup in Hin as [i Hi].
      apply list_elem_of_lookup in Hin' as [j Hj].
      assert (j = i).
      { apply (NoDup_lookup (map task_id (task_manager self)) j i (task_id t));
          [exact Hnodup | |].
        - rewrite list_lookup_fmap, Hj. simpl. congruence.
        - rewrite list_lookup_fmap, Hi. reflexivity. }
      subst j. congruence.
Qed.

Lemma urgent_reminders_union_dedup_sorted_witness :
  with_deadline_time (Some nine_am) standup
    ∈ ReminderSystem.get_urgent_reminders new_year_noon
        (BaseReminder.__init__ sample_store) <->
  with_deadline_time (Some nine_am) standup ∈ sample_store /\
  ((completed (with_deadline_time (Some nine_am) standup) = false /\
    deadline_date (with_deadline_time (Some nine_am) standup)
      = today new_year_noon) \/
   BaseTask.is_overdue new_year_noon
     (with_deadline_time (Some nine_am) standup) = true).
Proof.
  destruct (urgent_reminders_union_dedup_sorted new_year_noon
              (BaseReminder.__init__ sample_store))
    as (_ & _ & _ & _ & _ & Hunique).
  apply Hunique.
  refine (bool_decide_unpack _ _). vm_compute. exact I.
Defined.

(** The 09:00 stand-up is both due today and overdue at noon; it is listed
    once, after the task that was due the day before. *)
Example urgent_reminders_sample :
  map task_id
    (ReminderSystem.get_urgent_reminders new_year_noon
       (BaseReminder.__init__ sample_store))
  = ["id-invoice"; "id-standup"; "id-call"].
Proof. reflexivity. Qed.

Example urgent_keeps_first_of_duplicate_ids :
  map title
    (ReminderSystem.get_urgent_reminders new_year_noon
       (BaseReminder.__init__
          [with_title "first" (with_deadline_date jan_1_2024 report);
           with_title "second" (with_deadline_date (jan_1_2024 - 2) report)]))
  = ["first"].
Proof. reflexivity. Qed.

Lemma upcoming_tasks_in_range (clk : clock) (tasks : list Task) (days : Z) :
  valid_date (today clk + days) ->
  TaskManager.get_upcoming_tasks clk tasks days
  = Ok (py_sorted pair_ltb deadline_key
          (List.filter
             (fun t =>
                (today clk <=? deadline_date t)
                && (deadline_date t <=? today clk + days)
                && negb (completed t))
             tasks)).
Proof.
  intros Hvalid. unfold TaskManager.get_upcoming_tasks. cbv zeta.
  rewrite (date_add_in_range _ _ Hvalid). reflexivity.
Qed.

Lemma upcoming_tasks_Ok (clk : clock) (tasks up : list Task) (days : Z) :
  TaskManager.get_upcoming_tasks clk tasks days = Ok up ->
  ascending deadline_key up /\
  forall t, t ∈ up <->
    t ∈ tasks /\ completed t = false /\
    today clk <= deadline_date t <= today clk + days.
Proof.
  unfold TaskManager.get_upcoming_tasks. cbv zeta.
  destruct (date_add (today clk) days) as [future |] eqn:Hadd; simpl;
    intros Heq; inversion Heq; subst.
  apply date_add_Ok in Hadd as [-> _].
  split; [apply py_sorted_ascending |].
  intros t. rewrite elem_of_py_sorted, elem_of_List_filter.
  rewrite !andb_true_iff, negb_true_iff, !Z.leb_le. tauto.
Qed.

(** C7. The aggregator's upcoming reminders are the store's upcoming tasks
    for the configured threshold with the tasks due today filtered out.
    When [today + threshold] is a date, the store's list is the pending
    tasks due from today to that date, in ascending order of
    [(deadline_date, deadline_time or start of day)], and the reminders are
    those of them due after today; no task due today is ever among them. *)
Theorem upcoming_reminders_exclude_today (clk : clock) (self : Reminder) :
  let threshold := upcoming_threshold (reminder_settings self) in
  let not_today := fun t => negb (deadline_date t =? today clk) in
  ReminderSystem.get_upcoming_reminders clk self
    = (let* upcoming :=
         TaskManager.get_upcoming_tasks clk (task_manager self) threshold in
       Ok (List.filter not_today upcoming)) /\
  (valid_date (today clk + threshold) ->
   exists upcoming,
     TaskManager.get_upcoming_tasks clk (task_manager self) threshold
       = Ok upcoming /\
     ReminderSystem.get_upcoming_reminders clk self
       = Ok (List.filter not_today upcoming) /\
     ascending deadline_key upcoming /\
     (forall t, t ∈ upcoming <->
        t ∈ task_manager self /\ completed t = false /\
        today clk <= deadline_date t <= today clk + threshold)) /\
  (forall reminders,
     ReminderSystem.get_upcoming_reminders clk self = Ok reminders ->
     ascending deadline_key reminders /\
     Forall (fun t => deadline_date t <> today clk) reminders /\
     (forall t, t ∈ reminders <->
        t ∈ task_manager self /\ completed t = false /\
        today clk < deadline_date t <= today clk + threshold)).
Proof.
  intros threshold not_today.
  split; [reflexivity |]. split.
  - intros Hvalid. eexists. split; [apply upcoming_tasks_in_range, Hvalid |].
    split.
    + unfold ReminderSystem.get_upcoming_reminders. fold threshold.
      rewrite (upcoming_tasks_in_range _ _ _ Hvalid). reflexivity.
    + eapply upcoming_tasks_Ok. apply upcoming_tasks_in_range, Hvalid.
  - intros reminders. unfold ReminderSystem.get_upcoming_reminders.
    fold threshold.
    destruct (TaskManager.get_upcoming_tasks clk (task_manager self) threshold)
      as [upcoming |] eqn:Hup; simpl; intros Heq; inversion Heq; subst.
    apply upcoming_tasks_Ok in Hup as [Hsorted Hmem].
    split; [apply StronglySorted_filter, Hsorted |]. split.
    + apply Forall_forall. intros t Hin.
      apply elem_of_List_filter in Hin as [_ Hne].
      apply negb_true_iff, Z.eqb_neq in Hne. exact Hne.
    + intros t. rewrite elem_of_List_filter, Hmem, negb_true_iff, Z.eqb_neq.
      split; [intros ((Hin & Hpending & Hrange) & Hne)
             | intros (Hin & Hpending & Hrange)];
        repeat split; auto; lia.
Qed.

Lemma upcoming_reminders_exclude_today_witness :
  exists upcoming,
    TaskManager.get_upcoming_tasks new_year_noon sample_store 3 = Ok upcoming /\
    ReminderSystem.get_upcoming_reminders new_year_noon
      (BaseReminder.__init__ sample_store)
    = Ok (List.filter (fun t => negb (deadline_date t =? jan_1_2024)) upcoming) /\
    ascending deadline_key upcoming /\
    (forall t, t ∈ upcoming <->
       t ∈ sample_store /\ completed t = false /\
       jan_1_2024 <= deadline_date t <= jan_1_2024 + 3).
Proof.
  destruct (upcoming_reminders_exclude_today new_year_noon
              (BaseReminder.__init__ sample_store))
    as (_ & Hreturns & _).
  apply Hreturns. solve_valid_date.
Defined.

(** With the default threshold of three days: the tasks due today (with or
    without a time) are left out, the task due tomorrow is kept. *)
Example upcoming_reminders_sample :
  (let* upcoming := TaskManager.get_upcoming_tasks new_year_noon sample_store 3 in
   Ok (map task_id upcoming)) = Ok ["id-call"; "id-standup"; "id-report"] /\
  (let* reminders :=
     ReminderSystem.get_upcoming_reminders new_year_noon
       (BaseReminder.__init__ sample_store) in
   Ok (map task_id reminders)) = Ok ["id-report"].
Proof. split; reflexivity. Qed.

(** ** Statistics *)

Lemma count_priorities_Ok (tasks : list Task) (m m' : gmap Z Z) :
  TaskManager.count_priorities m tasks = Ok m' ->
  forall p,
    m' !! p
    = (fun n => n + Z.of_nat (length (TaskManager.get_tasks_by_priority tasks p)))
        <$> m !! p.
Proof.
  revert m. induction tasks as [| t tasks IH]; intros m Hcount p; simpl in *.
  - inversion Hcount; subst. destruct (m' !! p); simpl; [f_equal; lia | reflexivity].
  - destruct (m !! priority t) as [n |] eqn:Hn; [| discriminate].
    rewrite (IH _ Hcount p). unfold TaskManager.get_tasks_by_priority. simpl.
    destruct (Z.eqb_spec (priority t) p) as [Heq | Hne].
    + rewrite Heq in *. rewrite lookup_insert_eq, Hn. simpl. f_equal.
      rewrite Nat2Z.inj_succ. lia.
    + rewrite lookup_insert_ne by exact Hne. reflexivity.
Qed.

Lemma count_priorities_returns (tasks : list Task) (m : gmap Z Z) :
  Forall (fun t => is_Some (m !! priority t)) tasks ->
  returns (TaskManager.count_priorities m tasks).
Proof.
  revert m. induction tasks as [| t tasks IH]; intros m Hall; simpl.
  - eexists. reflexivity.
  - apply Forall_cons in Hall as [[n Hn] Hall]. rewrite Hn. apply IH.
    eapply Forall_impl; [exact Hall |]. intros t' [n' Hn'].
    destruct (Z.eqb_spec (priority t) (priority t')) as [Heq | Hne].
    + rewrite Heq, lookup_insert_eq. eauto.
    + rewrite lookup_insert_ne by exact Hne. eauto.
Qed.

Lemma count_priorities_raises (tasks1 tasks2 : list Task) (t : Task)
    (m : gmap Z Z) :
  Forall (fun t => is_Some (m !! priority t)) tasks1 ->
  m !! priority t = None ->
  TaskManager.count_priorities m (tasks1 ++ t :: tasks2) = Raise KeyError.
Proof.
  revert m. induction tasks1 as [| x tasks1 IH]; intros m Hall Hnone; simpl.
  - rewrite Hnone. reflexivity.
  - apply Forall_cons in Hall as [[n Hn] Hall]. rewrite Hn. apply IH.
    + eapply Forall_impl; [exact Hall |]. intros t' [n' Hn'].
      destruct (Z.eqb_spec (priority x) (priority t')) as [Heq | Hne].
      * rewrite Heq, lookup_insert_eq. eauto.
      * rewrite lookup_insert_ne by exact Hne. eauto.
    + rewrite lookup_insert_ne; [exact Hnone |].
      intros Heq. rewrite Heq, Hnone in Hn. discriminate.
Qed.

(** C9. On the empty store [get_statistics] returns a completion rate of [0]
    (the division is not evaluated) and a [by_priority] map with the keys
    1, 2 and 3, each at zero.  On a non-empty store whose priorities are
    1, 2 or 3 it returns, and whenever it returns on a non-empty store the
    completion rate is the float [completed / total * 100] and the
    [by_priority] map counts the tasks of each of the three levels. *)
Theorem statistics_empty_store_and_rate (clk : clock) :
  TaskManager.get_statistics clk []
    = Ok {| stat_total := 0;
            stat_completed := 0;
            stat_pending := 0;
            stat_overdue := 0;
            stat_completion_rate := NumInt 0;
            stat_by_category := ∅;
            stat_by_priority := <[1 := 0]> (<[2 := 0]> (<[3 := 0]> ∅)) |} /\
  (forall s, TaskManager.get_statistics clk [] = Ok s ->
     stat_completion_rate s = NumInt 0 /\
     stat_by_priority s !! 1 = Some 0 /\
     stat_by_priority s !! 2 = Some 0 /\
     stat_by_priority s !! 3 = Some 0) /\
  (forall tasks, tasks <> [] -> Forall valid_priority tasks ->
     returns (TaskManager.get_statistics clk tasks)) /\
  (forall tasks s, tasks <> [] ->
     TaskManager.get_statistics clk tasks = Ok s ->
     stat_total s = Z.of_nat (length tasks) /\
     stat_completed s = Z.of_nat (length (TaskManager.get_completed_tasks tasks)) /\
     stat_completion_rate s
       = NumFloat (PrimFloat.mul (truediv (stat_completed s) (stat_total s))
                     100%float) /\
     (forall p, p = 1 \/ p = 2 \/ p = 3 ->
        stat_by_priority s !! p
        = Some (Z.of_nat (length (TaskManager.get_tasks_by_priority tasks p))))).
Proof.
  split; [reflexivity |]. split; [| split].
  - intros s Hs. inversion Hs; subst. simpl. repeat split; reflexivity.
  - intros tasks _ Hvalid. unfold TaskManager.get_statistics. cbv zeta.
    destruct (count_priorities_returns tasks
                (<[1 := 0]> (<[2 := 0]> (<[3 := 0]> ∅)))) as [m Hm].
    + eapply Forall_impl; [exact Hvalid |].
      intros t [-> | [-> | ->]]; eexists; reflexivity.
    + rewrite Hm. simpl. eexists. reflexivity.
  - intros tasks s Hne. unfold TaskManager.get_statistics. cbv zeta.
    destruct (TaskManager.count_priorities _ tasks) as [m |] eqn:Hm; simpl;
      intros Heq; inversion Heq; subst; simpl.
    split; [reflexivity |]. split; [reflexivity |]. split.
    + destruct tasks as [| t tasks]; [contradiction Hne; reflexivity |].
      reflexivity.
    + intros p Hp. rewrite (count_priorities_Ok _ _ _ Hm p).
      destruct Hp as [-> | [-> | ->]]; reflexivity.
Qed.

Lemma sample_store_valid_priorities : Forall valid_priority sample_store.
Proof.
  unfold sample_store.
  repeat (apply List.Forall_cons; [unfold valid_priority; simpl; lia |]).
  apply List.Forall_nil.
Qed.

Lemma statistics_empty_store_and_rate_witness :
  returns (TaskManager.get_statistics new_year_noon sample_store) /\
  (forall s, TaskManager.get_statistics new_year_noon sample_store = Ok s ->
     stat_completion_rate s
     = NumFloat (PrimFloat.mul (truediv (stat_completed s) (stat_total s))
                   100%float)).
Proof.
  destruct (statistics_empty_store_and_rate new_year_noon)
    as (_ & _ & Hreturns & Hrate).
  split.
  - apply Hreturns; [discriminate | exact sample_store_valid_priorities].
  - intros s Hs. apply (Hrate sample_store s); [discriminate | exact Hs].
Defined.

(** One task of five is completed: the rate is [1 / 5 * 100 = 20.0]. *)
Example statistics_sample :
  (let* s := TaskManager.get_statistics new_year_noon sample_store in
   Ok (stat_total s, stat_completed s, stat_pending s, stat_overdue s,
       stat_completion_rate s,
       stat_by_category s !! "kerja", stat_by_category s !! "pribadi",
       stat_by_priority s !! 1, stat_by_priority s !! 2, stat_by_priority s !! 3))
  = Ok (5, 1, 4, 2, NumFloat 20%float, Some 3, Some 2, Some 3, Some 1, Some 1).
Proof. vm_compute. reflexivity. Qed.

(** Two of three: the float [2 / 3 * 100], which prints 66.66666666666666. *)
Example statistics_two_thirds :
  (let* s :=
     TaskManager.get_statistics new_year_noon
       [with_completed true report; with_completed true report; report] in
   Ok (stat_completion_rate s))
  = Ok (NumFloat 0x1.0aaaaaaaaaaaap+6%float).
Proof. vm_compute. reflexivity. Qed.

(** A priority outside 1, 2 and 3 is a missing key of [by_priority]. *)
Example statistics_unknown_priority :
  TaskManager.get_statistics new_year_noon [with_priority 4 report]
  = Raise KeyError.
Proof. reflexivity. Qed.

(** ** Further properties of the task entity *)

(** X1. Among pending Regular tasks that are not overdue, a task that is due
    no later and whose priority is no lower (1 being the highest) is at
    least as urgent. *)
Theorem regular_urgency_monotone (clk : clock) (t1 t2 : Task) :
  completed t1 = false -> completed t2 = false ->
  BaseTask.is_overdue clk t1 = false -> BaseTask.is_overdue clk t2 = false ->
  deadline_date t1 <= deadline_date t2 ->
  1 <= priority t1 <= priority t2 ->
  urgency_rank (RegularTask.get_urgency_level clk t2)
  <= urgency_rank (RegularTask.get_urgency_level clk t1).
Proof.
  intros Hc1 Hc2 Ho1 Ho2 Hdate Hprio.
  unfold RegularTask.get_urgency_level, BaseTask.get_days_until_deadline.
  rewrite Hc1, Hc2, Ho1, Ho2.
  destruct (Z.eqb_spec (priority t1) 1), (Z.eqb_spec (priority t1) 2),
    (Z.eqb_spec (priority t2) 1), (Z.eqb_spec (priority t2) 2); try lia;
    repeat match goal with
           | |- context [?a <=? ?b] => destruct (Z.leb_spec a b)
           end;
    try lia; vm_compute; discriminate.
Qed.

Lemma regular_urgency_monotone_witness :
  urgency_rank (RegularTask.get_urgency_level new_year_noon
                  (with_priority 3 (with_deadline_date (jan_1_2024 + 4) report)))
  <= urgency_rank (RegularTask.get_urgency_level new_year_noon report).
Proof.
  apply regular_urgency_monotone; try reflexivity; vm_compute;
    try split; discriminate.
Defined.

Lemma is_overdue_persists_aux (clk : clock) (t : Task) :
  BaseTask.is_overdue clk t = true -> deadline_date t <= today clk.
Proof.
  unfold BaseTask.is_overdue. destruct (completed t); [discriminate |].
  destruct (Z.ltb_spec (deadline_date t) (today clk)); [lia |].
  destruct (Z.eqb_spec (deadline_date t) (today clk)); [lia | discriminate].
Qed.

(** X2. A pending task that is overdue stays overdue at every later
    moment, and an overdue task is due today or earlier. *)
Theorem is_overdue_persists (a b : clock) (t : Task) :
  clock_le a b ->
  BaseTask.is_overdue a t = true ->
  BaseTask.is_overdue b t = true /\ deadline_date t <= today a.
Proof.
  unfold clock_le, BaseTask.is_overdue. intros Hle.
  destruct (completed t); [discriminate |].
  destruct (Z.ltb_spec (deadline_date t) (today a)) as [Hpast | Hnot].
  - intros _. split; [| lia].
    destruct (Z.ltb_spec (deadline_date t) (today b)); [reflexivity | lia].
  - destruct (Z.eqb_spec (deadline_date t) (today a)) as [Heq | Hne];
      [| discriminate].
    destruct (deadline_time t) as [dl |]; [| discriminate].
    intros Hgt. apply Z.gtb_lt in Hgt. split; [| lia].
    destruct (Z.ltb_spec (deadline_date t) (today b)); [reflexivity |].
    destruct (Z.eqb_spec (deadline_date t) (today b)); [| lia].
    apply Z.gtb_lt. lia.
Qed.

Lemma is_overdue_persists_witness :
  BaseTask.is_overdue (mk_clock (jan_1_2024 + 1) 0)
    (with_deadline_time (Some nine_am) standup) = true /\
  deadline_date (with_deadline_time (Some nine_am) standup) <= jan_1_2024.
Proof.
  apply (is_overdue_persists new_year_noon).
  - left. vm_compute. reflexivity.
  - reflexivity.
Defined.

(** ** Further properties of the queries of the store *)

Lemma length_List_filter_le {A : Type} (f : A -> bool) (l : list A) :
  (length (List.filter f l) <= length l)%nat.
Proof.
  induction l as [| x l IH]; simpl; [lia |]. destruct (f x); simpl; lia.
Qed.

Lemma length_List_filter_split {A : Type} (f : A -> bool) (l : list A) :
  (length (List.filter f l) + length (List.filter (fun x => negb (f x)) l)
   = length l)%nat.
Proof.
  induction l as [| x l IH]; simpl; [reflexivity |].
  destruct (f x); simpl; lia.
Qed.

Lemma List_filter_filter_implied {A : Type} (f g : A -> bool) (l : list A) :
  (forall x, f x = true -> g x = true) ->
  List.filter f (List.filter g l) = List.filter f l.
Proof.
  intros Himp. induction l as [| x l IH]; simpl; [reflexivity |].
  destruct (g x) eqn:Hg; simpl.
  - rewrite IH. reflexivity.
  - destruct (f x) eqn:Hf; [| exact IH].
    rewrite (Himp x Hf) in Hg. discriminate.
Qed.

Lemma is_overdue_pending (clk : clock) (t : Task) :
  BaseTask.is_overdue clk t = true -> negb (completed t) = true.
Proof.
  unfold BaseTask.is_overdue. destruct (completed t); [discriminate | reflexivity].
Qed.

(** X3. [get_all_tasks] returns the tasks of the store, each as often as it
    is stored, in ascending order of date and then of time, a task without
    a time counting as due at midnight; tasks with the same date and time
    keep the order they have in the store. *)
Theorem get_all_tasks_sorted_permutation (tasks : list Task) :
  TaskManager.get_all_tasks tasks ≡ₚ tasks /\
  ascending deadline_key (TaskManager.get_all_tasks tasks) /\
  (forall k : Z * Z,
     let same_key := fun t =>
       (fst (deadline_key t) =? fst k) && (snd (deadline_key t) =? snd k) in
     List.filter same_key (TaskManager.get_all_tasks tasks)
     = List.filter same_key tasks).
Proof.
  unfold TaskManager.get_all_tasks. split; [apply py_sorted_perm |].
  split; [apply py_sorted_ascending |].
  intros k. apply py_sorted_keeps_order_of_equal_keys.
Qed.

Lemma count_priorities_Ok_keys (tasks : list Task) (m m' : gmap Z Z) :
  TaskManager.count_priorities m tasks = Ok m' ->
  Forall (fun t => is_Some (m !! priority t)) tasks.
Proof.
  revert m. induction tasks as [| t tasks IH]; intros m Hcount; simpl in *;
    [constructor |].
  destruct (m !! priority t) as [n |] eqn:Hn; [| discriminate].
  constructor; [rewrite Hn; eauto |].
  eapply Forall_impl; [exact (IH _ Hcount) |]. intros t' Hsome. simpl in Hsome.
  destruct (Z.eqb_spec (priority t) (priority t')) as [Heq | Hne].
  - rewrite <- Heq, Hn. eauto.
  - rewrite lookup_insert_ne in Hsome by exact Hne. exact Hsome.
Qed.

Lemma priority_counters_keys (p : Z) :
  is_Some ((<[1 := 0]> (<[2 := 0]> (<[3 := 0]> (∅ : gmap Z Z)))) !! p) ->
  p = 1 \/ p = 2 \/ p = 3.
Proof.
  intros Hsome.
  destruct (Z.eqb_spec 1 p) as [| H1]; [auto |].
  destruct (Z.eqb_spec 2 p) as [| H2]; [auto |].
  destruct (Z.eqb_spec 3 p) as [| H3]; [auto |].
  rewrite !lookup_insert_ne, lookup_empty in Hsome by assumption.
  destruct Hsome as [x Hx]. discriminate.
Qed.

Lemma priorities_partition (tasks : list Task) :
  Forall valid_priority tasks ->
  Z.of_nat (length (TaskManager.get_tasks_by_priority tasks 1))
  + Z.of_nat (length (TaskManager.get_tasks_by_priority tasks 2))
  + Z.of_nat (length (TaskManager.get_tasks_by_priority tasks 3))
  = Z.of_nat (length tasks).
Proof.
  unfold TaskManager.get_tasks_by_priority.
  induction 1 as [| t tasks Ht Hall IH]; [reflexivity |]. simpl.
  destruct Ht as [-> | [-> | ->]]; simpl; lia.
Qed.

(** X4. Whenever the statistics are returned, every priority of the store is
    1, 2 or 3, completed and pending add up to the total, the overdue tasks
    are counted among the pending ones, and the three priority counters add
    up to the total. *)
Theorem statistics_counts_add_up (clk : clock) (tasks : list Task)
    (s : Statistics) :
  TaskManager.get_statistics clk tasks = Ok s ->
  Forall valid_priority tasks /\
  stat_completed s + stat_pending s = stat_total s /\
  0 <= stat_overdue s <= stat_pending s /\
  (exists high medium low,
     stat_by_priority s !! 1 = Some high /\
     stat_by_priority s !! 2 = Some medium /\
     stat_by_priority s !! 3 = Some low /\
     high + medium + low = stat_total s).
Proof.
  unfold TaskManager.get_statistics. cbv zeta.
  destruct (TaskManager.count_priorities _ tasks) as [m |] eqn:Hm; simpl;
    intros Heq; inversion Heq; subst; clear Heq; simpl.
  assert (Hvalid : Forall valid_priority tasks).
  { eapply Forall_impl; [exact (count_priorities_Ok_keys _ _ _ Hm) |].
    intros t Hsome. apply priority_counters_keys. exact Hsome. }
  split; [exact Hvalid |]. split; [| split].
  - unfold TaskManager.get_completed_tasks, TaskManager.get_pending_tasks.
    pose proof (length_List_filter_split completed tasks). lia.
  - unfold TaskManager.get_overdue_tasks, TaskManager.get_pending_tasks.
    rewrite <- (List_filter_filter_implied (BaseTask.is_overdue clk)
                  (fun t => negb (completed t)) tasks)
      by apply is_overdue_pending.
    pose proof (length_List_filter_le (BaseTask.is_overdue clk)
                  (List.filter (fun t => negb (completed t)) tasks)).
    lia.
  - do 3 eexists.
    rewrite !(count_priorities_Ok _ _ _ Hm). simpl.
    split; [reflexivity |]. split; [reflexivity |]. split; [reflexivity |].
    pose proof (priorities_partition tasks Hvalid). lia.
Qed.

Lemma statistics_counts_add_up_witness :
  exists s,
    TaskManager.get_statistics new_year_noon sample_store = Ok s /\
    stat_completed s + stat_pending s = stat_total s /\
    0 <= stat_overdue s <= stat_pending s.
Proof.
  exists {| stat_total := 5; stat_completed := 1; stat_pending := 4;
            stat_overdue := 2; stat_completion_rate := NumFloat 20%float;
            stat_by_category := <["kerja" := 3]> (<["pribadi" := 2]> ∅);
            stat_by_priority := <[1 := 3]> (<[2 := 1]> (<[3 := 1]> ∅)) |}.
  assert (Hs : TaskManager.get_statistics new_year_noon sample_store
               = Ok {| stat_total := 5; stat_completed := 1; stat_pending := 4;
                       stat_overdue := 2;
                       stat_completion_rate := NumFloat 20%float;
                       stat_by_category :=
                         <["kerja" := 3]> (<["pribadi" := 2]> ∅);
                       stat_by_priority :=
                         <[1 := 3]> (<[2 := 1]> (<[3 := 1]> ∅)) |})
    by (vm_compute; reflexivity).
  split; [exact Hs |].
  destruct (statistics_counts_add_up new_year_noon sample_store _ Hs)
    as (_ & Hsum & Hoverdue & _).
  split; [exact Hsum | exact Hoverdue].
Defined.

Lemma count_categories_fold (tasks : list Task) (m : gmap string Z) (c : string) :
  fold_left
    (fun (m : gmap string Z) t =>
       <[category t := default 0 (m !! category t) + 1]> m)
    tasks m !! c
  = let n := Z.of_nat (length (List.filter (fun t => String.eqb (category t) c) tasks)) in
    if n =? 0 then m !! c else Some (default 0 (m !! c) + n).
Proof.
  revert m. induction tasks as [| t tasks IH]; intros m; [reflexivity |].
  simpl fold_left. rewrite IH. cbv zeta. simpl List.filter.
  destruct (String.eqb_spec (category t) c) as [Heq | Hne].
  - rewrite Heq, lookup_insert_eq. simpl length. rewrite Nat2Z.inj_succ.
    simpl default.
    destruct (Z.eqb_spec (Z.of_nat (length (List.filter
                (fun t0 => String.eqb (category t0) c) tasks))) 0) as [Hz | Hnz].
    + rewrite Hz. simpl. reflexivity.
    + destruct (Z.eqb_spec (Z.succ (Z.of_nat (length (List.filter
                (fun t0 => String.eqb (category t0) c) tasks)))) 0); [lia |].
      f_equal. lia.
  - rewrite lookup_insert_ne by exact Hne. reflexivity.
Qed.

(** X5. In the statistics, a category is a key of [by_category] exactly when
    some task carries it, letter for letter, and its value is the number of
    those tasks; no category is listed with a count of zero. *)
Theorem statistics_by_category_counts (clk : clock) (tasks : list Task)
    (s : Statistics) (c : string) :
  TaskManager.get_statistics clk tasks = Ok s ->
  let n := Z.of_nat (length (List.filter (fun t => String.eqb (category t) c) tasks)) in
  stat_by_category s !! c = (if n =? 0 then None else Some n) /\
  (stat_by_category s !! c = None <-> Forall (fun t => category t <> c) tasks).
Proof.
  unfold TaskManager.get_statistics. cbv zeta.
  destruct (TaskManager.count_priorities _ tasks) as [m |]; simpl;
    intros Heq; inversion Heq; subst; clear Heq; simpl.
  assert (Hlookup : TaskManager.count_categories tasks !! c
            = if Z.of_nat (length (List.filter
                   (fun t => String.eqb (category t) c) tasks)) =? 0
              then None
              else Some (Z.of_nat (length (List.filter
                   (fun t => String.eqb (category t) c) tasks)))).
  { unfold TaskManager.count_categories. rewrite count_categories_fold.
    cbv zeta. rewrite lookup_empty. simpl.
    destruct (_ =? 0); [reflexivity | f_equal]. }
  split; [exact Hlookup |]. rewrite Hlookup. clear Hlookup.
  induction tasks as [| t tasks IH]; simpl.
  - split; [constructor | reflexivity].
  - destruct (String.eqb_spec (category t) c) as [Heq | Hne]; simpl length.
    + rewrite Nat2Z.inj_succ.
      destruct (Z.eqb_spec (Z.succ (Z.of_nat (length (List.filter
                  (fun t0 => String.eqb (category t0) c) tasks)))) 0); [lia |].
      split; [discriminate |]. intros Hall. apply Forall_cons in Hall as [Hne _].
      contradiction.
    + rewrite IH. rewrite Forall_cons. tauto.
Qed.

Lemma statistics_by_category_counts_witness :
  (<["kerja" := 3]> (<["pribadi" := 2]> (∅ : gmap string Z))) !! "kerja"
    = Some 3 /\
  ((<["kerja" := 3]> (<["pribadi" := 2]> (∅ : gmap string Z))) !! "kerja" = None
   <-> Forall (fun t => category t <> "kerja") sample_store).
Proof.
  refine (statistics_by_category_counts new_year_noon sample_store
            {| stat_total := 5; stat_completed := 1; stat_pending := 4;
               stat_overdue := 2; stat_completion_rate := NumFloat 20%float;
               stat_by_category := <["kerja" := 3]> (<["pribadi" := 2]> ∅);
               stat_by_priority := <[1 := 3]> (<[2 := 1]> (<[3 := 1]> ∅)) |}
            "kerja" _).
  vm_compute. reflexivity.
Defined.

Lemma List_filter_sublist {A : Type} (f : A -> bool) (l : list A) :
  sublist (List.filter f l) l.
Proof.
  induction l as [| x l IH]; simpl; [constructor |].
  destruct (f x); [apply sublist_skip | apply sublist_cons]; exact IH.
Qed.

(** *** Substrings *)

Lemma prefix_iff (sub s : string) :
  String.prefix sub s = true <-> exists post, s = String.append sub post.
Proof.
  revert s. induction sub as [| c sub IH]; intros s; simpl.
  - split; [intros _; exists s; reflexivity | intros _; destruct s; reflexivity].
  - destruct s as [| c' s]; [split; [discriminate | intros [post Hpost]; discriminate] |].
    simpl. destruct (Ascii.ascii_dec c c') as [-> | Hne].
    + rewrite IH. split; intros [post Hpost]; exists post.
      * rewrite Hpost. reflexivity.
      * inversion Hpost. reflexivity.
    + split; [discriminate |]. intros [post Hpost]. inversion Hpost. congruence.
Qed.

Lemma contains_unfold (sub s : string) :
  contains sub s
  = String.prefix sub s
    || match s with
       | EmptyString => false
       | String _ s' => contains sub s'
       end.
Proof. destruct s; reflexivity. Qed.

Lemma contains_iff (sub s : string) :
  contains sub s = true <->
  exists pre post, s = String.append pre (String.append sub post).
Proof.
  induction s as [| c s IH]; rewrite contains_unfold.
  - rewrite orb_false_r, prefix_iff. split.
    + intros [post Hpost]. exists EmptyString, post. exact Hpost.
    + intros [pre [post Hpost]]. destruct pre; [exists post; exact Hpost |].
      discriminate.
  - rewrite orb_true_iff, prefix_iff, IH. split.
    + intros [[post Hpost] | [pre [post Hpost]]].
      * exists EmptyString, post. exact Hpost.
      * exists (String c pre), post. simpl. rewrite Hpost. reflexivity.
    + intros [pre [post Hpost]]. destruct pre as [| c' pre]; simpl in Hpost.
      * left. exists post. exact Hpost.
      * right. inversion Hpost. exists pre, post. reflexivity.
Qed.

(** X6. [search_tasks] keeps, in the order of the store, the tasks whose
    title or description, in lower case, has the query in lower case as a
    substring; two queries that are the same in lower case give the same
    result, and a query that is empty in lower case returns every task. *)
Theorem search_tasks_substring {L : StrLower} (tasks : list Task)
    (query : string) :
  (forall t, t ∈ TaskManager.search_tasks tasks query <->
     t ∈ tasks /\
     ((exists pre post,
         str_lower (title t)
         = String.append pre (String.append (str_lower query) post)) \/
      (exists pre post,
         str_lower (description t)
         = String.append pre (String.append (str_lower query) post)))) /\
  sublist (TaskManager.search_tasks tasks query) tasks /\
  (forall query', str_lower query' = str_lower query ->
     TaskManager.search_tasks tasks query'
     = TaskManager.search_tasks tasks query) /\
  (str_lower query = "" -> TaskManager.search_tasks tasks query = tasks).
Proof.
  unfold TaskManager.search_tasks. cbv zeta.
  split; [| split; [| split]].
  - intros t. rewrite elem_of_List_filter, orb_true_iff, !contains_iff. tauto.
  - apply List_filter_sublist.
  - intros query' ->. reflexivity.
  - intros ->.
    induction tasks as [| t tasks IH]; [reflexivity |].
    simpl List.filter. rewrite IH, (contains_unfold "" (str_lower (title t))).
    destruct (str_lower (title t)); reflexivity.
Qed.

Example search_tasks_sample :
  map task_id (TaskManager.search_tasks (L := ascii_lower) sample_store "STA")
    = ["id-standup"] /\
  map task_id
    (TaskManager.search_tasks (L := ascii_lower) sample_store "quarter")
    = ["id-report"] /\
  TaskManager.search_tasks (L := ascii_lower) sample_store "zzz" = [].
Proof. repeat split. Qed.

Lemma List_filter_ext_Forall {A : Type} (P : A -> Prop) (f g : A -> bool)
    (l : list A) :
  Forall P l -> (forall x, P x -> f x = g x) ->
  List.filter f l = List.filter g l.
Proof.
  intros Hall Hfg. induction Hall as [| x l Hx Hall IH]; [reflexivity |].
  simpl. rewrite (Hfg x Hx), IH. reflexivity.
Qed.

(** X7. [get_tasks_by_category] compares categories without regard to case:
    it keeps the tasks whose category equals the argument once both are in
    lower case, so two arguments that are the same in lower case give the
    same tasks.  On a store whose categories are all lowercase (lower-casing
    leaves them as they are), the number of tasks it returns for a category
    is the count the statistics give for that category in lower case. *)
Theorem get_tasks_by_category_ignores_case {L : StrLower} (clk : clock)
    (tasks : list Task) (c : string) :
  (forall t, t ∈ TaskManager.get_tasks_by_category tasks c <->
     t ∈ tasks /\ str_lower (category t) = str_lower c) /\
  (forall c', str_lower c' = str_lower c ->
     TaskManager.get_tasks_by_category tasks c'
     = TaskManager.get_tasks_by_category tasks c) /\
  (forall s,
     Forall (fun t => str_lower (category t) = category t) tasks ->
     TaskManager.get_statistics clk tasks = Ok s ->
     let n := Z.of_nat (length (TaskManager.get_tasks_by_category tasks c)) in
     stat_by_category s !! str_lower c = (if n =? 0 then None else Some n)).
Proof.
  split; [| split].
  - intros t. unfold TaskManager.get_tasks_by_category.
    rewrite elem_of_List_filter, String.eqb_eq. tauto.
  - intros c' Hc. unfold TaskManager.get_tasks_by_category. rewrite Hc.
    reflexivity.
  - intros s Hlower Hs.
    assert (Hcat : stat_by_category s = TaskManager.count_categories tasks).
    { revert Hs. unfold TaskManager.get_statistics. cbv zeta.
      destruct (TaskManager.count_priorities _ tasks); simpl;
        intros Hs; inversion Hs; reflexivity. }
    rewrite Hcat. unfold TaskManager.count_categories.
    rewrite count_categories_fold. cbv zeta. rewrite lookup_empty. simpl default.
    rewrite Z.add_0_l. unfold TaskManager.get_tasks_by_category.
    rewrite (List_filter_ext_Forall _
               (fun t => String.eqb (category t) (str_lower c))
               (fun t => String.eqb (str_lower (category t)) (str_lower c))
               tasks Hlower); [reflexivity |].
    intros t Ht. rewrite Ht. reflexivity.
Qed.

Lemma sample_store_lowercase :
  Forall (fun t => lower (category t) = category t) sample_store.
Proof. repeat constructor. Qed.

Lemma get_tasks_by_category_ignores_case_witness :
  (<["kerja" := 3]> (<["pribadi" := 2]> (∅ : gmap string Z))) !! lower "KERJA"
  = Some 3.
Proof.
  destruct (get_tasks_by_category_ignores_case (L := ascii_lower)
              new_year_noon sample_store "KERJA")
    as (_ & _ & Hstats).
  refine (Hstats
            {| stat_total := 5; stat_completed := 1; stat_pending := 4;
               stat_overdue := 2; stat_completion_rate := NumFloat 20%float;
               stat_by_category := <["kerja" := 3]> (<["pribadi" := 2]> ∅);
               stat_by_priority := <[1 := 3]> (<[2 := 1]> (<[3 := 1]> ∅)) |}
            sample_store_lowercase _).
  vm_compute. reflexivity.
Defined.

Example get_tasks_by_category_sample :
  map task_id
    (TaskManager.get_tasks_by_category (L := ascii_lower) sample_store "KERJA")
  = ["id-report"; "id-standup"; "id-invoice"] /\
  TaskManager.get_tasks_by_category (L := ascii_lower) sample_store "Kerja"
  = TaskManager.get_tasks_by_category (L := ascii_lower) sample_store "kerja".
Proof. split; reflexivity. Qed.

(** ** Further properties of the operations of the store *)

Lemma find_task_app (id : string) (l1 l2 : list Task) :
  snd <$> TaskManager.get_task_by_id (l1 ++ l2) id
  = match TaskManager.get_task_by_id l1 id with
    | Some found => Some (snd found)
    | None => snd <$> TaskManager.get_task_by_id l2 id
    end.
Proof.
  unfold TaskManager.get_task_by_id.
  destruct (list_find (fun t => task_id t = id) l1) as [[i x] |] eqn:Hfind.
  - rewrite (list_find_app_l _ _ _ _ _ Hfind). reflexivity.
  - rewrite (list_find_app_r _ _ _ Hfind).
    destruct (list_find (fun t => task_id t = id) l2) as [[j y] |]; reflexivity.
Qed.

Lemma get_task_by_id_split (tasks : list Task) (id : string) (i : nat) (t : Task) :
  TaskManager.get_task_by_id tasks id = Some (i, t) ->
  tasks = take i tasks ++ t :: drop (S i) tasks /\
  length (take i tasks) = i /\
  Forall (fun x => task_id x <> id) (take i tasks).
Proof.
  unfold TaskManager.get_task_by_id. intros Hfind.
  apply list_find_Some in Hfind as (Hi & _ & Hfirst).
  split; [symmetry; apply take_drop_middle; exact Hi |].
  assert (Hlt : (i < length tasks)%nat) by (eapply lookup_lt_Some; eauto).
  split; [rewrite length_take; lia |].
  apply Forall_forall. intros x Hx.
  apply list_elem_of_lookup in Hx as [j Hj].
  assert (Hji : (j < i)%nat).
  { apply lookup_lt_Some in Hj. rewrite length_take in Hj. lia. }
  rewrite lookup_take_lt in Hj by exact Hji. exact (Hfirst j x Hj Hji).
Qed.

Lemma get_task_by_id_insert (tasks : list Task) (id : string) (i : nat)
    (t t' : Task) :
  TaskManager.get_task_by_id tasks id = Some (i, t) ->
  task_id t' = id ->
  TaskManager.get_task_by_id (<[i := t']> tasks) id = Some (i, t').
Proof.
  unfold TaskManager.get_task_by_id. intros Hfind Hid.
  apply list_find_Some in Hfind as (Hi & _ & Hfirst).
  apply list_find_insert_Some. right. left.
  split; [reflexivity |]. split; [reflexivity |].
  split; [eapply lookup_lt_Some; eauto |]. split; [exact Hid | exact Hfirst].
Qed.



(** X9. [delete_task] returns false and changes nothing for an unknown
    identifier.  Otherwise it removes the first task with the identifier and
    nothing else, so that every other identifier still finds its task; when
    identifiers are unique, the deleted one finds nothing afterwards. *)
Theorem delete_task_removes_first (tasks : list Task) (id : string) :
  (TaskManager.get_task_by_id tasks id = None ->
   TaskManager.delete_task tasks id = (tasks, false)) /\
  (forall i t,
     TaskManager.get_task_by_id tasks id = Some (i, t) ->
     TaskManager.delete_task tasks id
       = (take i tasks ++ drop (S i) tasks, true) /\
     tasks = take i tasks ++ t :: drop (S i) tasks /\
     S (length (fst (TaskManager.delete_task tasks id))) = length tasks /\
     (forall id', id' <> id ->
        snd <$> TaskManager.get_task_by_id
                  (fst (TaskManager.delete_task tasks id)) id'
        = snd <$> TaskManager.get_task_by_id tasks id') /\
     (NoDup (map task_id tasks) ->
      TaskManager.get_task_by_id (fst (TaskManager.delete_task tasks id)) id
      = None)).
Proof.
  split.
  - unfold TaskManager.delete_task. intros ->. reflexivity.
  - intros i t Hfind.
    destruct (get_task_by_id_split _ _ _ _ Hfind) as (Hsplit & Hlen & Hbefore).
    destruct (get_task_by_id_Some _ _ _ _ Hfind) as [Hi Hid].
    assert (Hdel : TaskManager.delete_task tasks id
                   = (take i tasks ++ drop (S i) tasks, true)).
    { unfold TaskManager.delete_task. rewrite Hfind, delete_take_drop.
      reflexivity. }
    rewrite Hdel. simpl fst.
    split; [reflexivity |]. split; [exact Hsplit |]. split; [| split].
    + rewrite Hsplit at 3. rewrite !length_app. simpl. lia.
    + intros id' Hne. rewrite Hsplit at 3. rewrite !find_task_app.
      destruct (TaskManager.get_task_by_id (take i tasks) id'); [reflexivity |].
      change (t :: drop (S i) tasks) with ([t] ++ drop (S i) tasks).
      rewrite find_task_app.
      assert (Hskip : TaskManager.get_task_by_id [t] id' = None).
      { apply get_task_by_id_None. constructor; [congruence | constructor]. }
      rewrite Hskip. reflexivity.
    + intros Hnodup. apply get_task_by_id_None. apply Forall_app.
      split; [exact Hbefore |].
      rewrite Hsplit, fmap_app, fmap_cons in Hnodup.
      apply NoDup_app in Hnodup as (_ & _ & Hnodup).
      apply NoDup_cons in Hnodup as [Hnotin _].
      apply Forall_forall. intros x Hx Heq. apply Hnotin.
      rewrite Hid, <- Heq. apply (list_elem_of_fmap_2 task_id). exact Hx.
Qed.

Lemma delete_task_removes_first_witness :
  TaskManager.delete_task sample_store "id-invoice"
    = (take 2 sample_store ++ drop 3 sample_store, true) /\
  TaskManager.get_task_by_id
    (fst (TaskManager.delete_task sample_store "id-invoice")) "id-invoice"
  = None.
Proof.
  destruct (delete_task_removes_first sample_store "id-invoice") as [_ Hfound].
  destruct (Hfound 2%nat
              (RegularTask.__init__ "id-invoice" new_year_noon "Invoice" ""
                 (Some (jan_1_2024 - 1)) None 2 "kerja") eq_refl)
    as (Hdel & _ & _ & _ & Hgone).
  split; [exact Hdel |]. apply Hgone.
  refine (bool_decide_unpack _ _). vm_compute. exact I.
Defined.

(** With a repeated identifier, deleting it once leaves the second task
    to be found. *)
Example delete_task_repeated_id :
  snd <$> TaskManager.get_task_by_id
            (fst (TaskManager.delete_task [report; with_title "copy" report]
                    "id-report"))
            "id-report"
  = Some (with_title "copy" report).
Proof. reflexivity. Qed.

Lemma setattr_keeps_class (u : field_update) (t : Task) :
  is_recurring (setattr_if_present u t) = is_recurring t.
Proof.
  unfold is_recurring. destruct u; simpl; try reflexivity;
    destruct (recurring t) eqn:Hrec; simpl; rewrite ?Hrec; reflexivity.
Qed.

Lemma setattr_fold_keeps_class (kwargs : list field_update) (t : Task) :
  is_recurring (fold_left (fun t u => setattr_if_present u t) kwargs t)
  = is_recurring t.
Proof.
  revert t. induction kwargs as [| u kwargs IH]; intros t; [reflexivity |].
  simpl. rewrite IH. apply setattr_keeps_class.
Qed.

Lemma setattr_fold_ignored (kwargs : list field_update) (t : Task) :
  recurring t = None ->
  forallb recurrence_keyword kwargs = true ->
  fold_left (fun t u => setattr_if_present u t) kwargs t = t.
Proof.
  intros Hreg. induction kwargs as [| u kwargs IH]; [reflexivity |].
  simpl. intros Hall. apply andb_prop in Hall as [Hu Hall].
  assert (Hskip : setattr_if_present u t = t)
    by (destruct u; try discriminate; simpl; rewrite ?Hreg; reflexivity).
  rewrite Hskip. apply IH. exact Hall.
Qed.

(** X10. [update_task] returns false and changes nothing for an unknown
    identifier.  Otherwise it returns true and rewrites the first task with
    the identifier in place: the number of tasks, every other task and the
    class of the task stay as they were; recurrence keywords and unknown
    keywords given for a Regular task are ignored, the store being left
    unchanged. *)
Theorem update_task_in_place (tasks : list Task) (id : string)
    (kwargs : list field_update) :
  (TaskManager.get_task_by_id tasks id = None ->
   TaskManager.update_task tasks id kwargs = (tasks, false)) /\
  (forall i t,
     TaskManager.get_task_by_id tasks id = Some (i, t) ->
     exists t',
       TaskManager.update_task tasks id kwargs = (<[i := t']> tasks, true) /\
       <[i := t']> tasks !! i = Some t' /\
       length (<[i := t']> tasks) = length tasks /\
       (forall j, j <> i -> <[i := t']> tasks !! j = tasks !! j) /\
       is_recurring t' = is_recurring t /\
       (recurring t = None -> forallb recurrence_keyword kwargs = true ->
        TaskManager.update_task tasks id kwargs = (tasks, true))).
Proof.
  unfold TaskManager.update_task. split; [intros ->; reflexivity |].
  intros i t Hfind. rewrite Hfind.
  destruct (get_task_by_id_Some _ _ _ _ Hfind) as [Hi _].
  eexists. split; [reflexivity |].
  split; [apply list_lookup_insert_eq; eapply lookup_lt_Some; eauto |].
  split; [apply length_insert |].
  split; [intros j Hne; apply list_lookup_insert_ne; congruence |].
  split; [apply setattr_fold_keeps_class |].
  intros Hreg Hkw. rewrite (setattr_fold_ignored _ _ Hreg Hkw).
  rewrite list_insert_id by exact Hi. reflexivity.
Qed.

Lemma update_task_in_place_witness :
  TaskManager.update_task sample_store "id-report"
    [set_recurrence_count 7; set_other "colour"]
  = (sample_store, true).
Proof.
  destruct (update_task_in_place sample_store "id-report"
              [set_recurrence_count 7; set_other "colour"]) as [_ Hfound].
  destruct (Hfound 0%nat report eq_refl) as (t' & _ & _ & _ & _ & _ & Hignored).
  apply Hignored; reflexivity.
Defined.

(** X11. Completing a Regular task a second time has the effect of a single
    completion at the later moment: the time of completion is overwritten
    and nothing else changes. *)
Theorem mark_completed_twice_regular {L : StrLower} (tasks : list Task)
    (id uuid1 uuid2 : string) (clk1 clk2 : clock) (i : nat) (t : Task) :
  TaskManager.get_task_by_id tasks id = Some (i, t) ->
  recurring t = None ->
  TaskManager.mark_completed
    (fst (TaskManager.mark_completed tasks id uuid1 clk1)) id uuid2 clk2
  = TaskManager.mark_completed tasks id uuid2 clk2 /\
  fst (TaskManager.mark_completed tasks id uuid2 clk2) !! i
  = Some (with_completed_at (Some (now clk2)) (with_completed true t)).
Proof.
  intros Hfind Hreg.
  destruct (get_task_by_id_Some _ _ _ _ Hfind) as [Hi Hid].
  rewrite (mark_completed_regular tasks id uuid1 clk1 i t Hfind Hreg).
  rewrite (mark_completed_regular tasks id uuid2 clk2 i t Hfind Hreg).
  simpl fst. split.
  - rewrite (mark_completed_regular _ id uuid2 clk2 i
               (BaseTask.mark_completed clk1 t)).
    + rewrite list_insert_insert_eq. reflexivity.
    + apply (get_task_by_id_insert _ _ _ t); [exact Hfind | exact Hid].
    + exact Hreg.
  - apply list_lookup_insert_eq. eapply lookup_lt_Some; eauto.
Qed.

Lemma mark_completed_twice_regular_witness :
  TaskManager.mark_completed (L := ascii_lower)
    (fst (TaskManager.mark_completed (L := ascii_lower) sample_store "id-call"
            "u1" new_year_noon))
    "id-call" "u2" (mk_clock (jan_1_2024 + 1) nine_am)
  = TaskManager.mark_completed (L := ascii_lower) sample_store "id-call" "u2"
      (mk_clock (jan_1_2024 + 1) nine_am).
Proof.
  apply (mark_completed_twice_regular (L := ascii_lower) sample_store
           "id-call" "u1" "u2"
           new_year_noon (mk_clock (jan_1_2024 + 1) nine_am) 3%nat
           (RegularTask.__init__ (L := ascii_lower) "id-call" new_year_noon
              "Call" "" (Some jan_1_2024) None 3 "pribadi")); reflexivity.
Defined.

(** X12. Completing a Recurring task a second time appends a second next
    instance: after two calls the store holds two more tasks, both pending
    and both due on the next deadline of the completed task. *)
Theorem mark_completed_twice_recurring {L : StrLower} (tasks : list Task)
    (id uuid1 uuid2 : string) (clk1 clk2 : clock) (i : nat) (t : Task)
    (r : recurrence) (next : date) :
  TaskManager.get_task_by_id tasks id = Some (i, t) ->
  recurring t = Some r ->
  RecurringTask.get_next_deadline t = Ok next ->
  exists s1 s2,
    TaskManager.mark_completed
      (fst (TaskManager.mark_completed tasks id uuid1 clk1)) id uuid2 clk2
    = (<[i := BaseTask.mark_completed clk2 t]> tasks ++ [s1; s2], Ok true) /\
    task_id s1 = uuid1 /\ task_id s2 = uuid2 /\
    deadline_date s1 = next /\ deadline_date s2 = next /\
    completed s1 = false /\ completed s2 = false /\
    title s1 = title t /\ title s2 = title t.
Proof.
  intros Hfind Hrec Hnext.
  destruct (get_task_by_id_Some _ _ _ _ Hfind) as [Hi Hid].
  assert (Hlt : (i < length tasks)%nat) by (eapply lookup_lt_Some; eauto).
  assert (Hstep : forall l x uuid clk,
            TaskManager.get_task_by_id l id = Some (i, x) ->
            recurring x = Some r ->
            RecurringTask.get_next_deadline x = Ok next ->
            TaskManager.mark_completed l id uuid clk
            = (<[i := BaseTask.mark_completed clk x]> l
                 ++ [RecurringTask.__init__ uuid clk (title x) (description x)
                       (Some next) (deadline_time x) (priority x) (category x)
                       (recurrence_type r) (recurrence_count r)],
               Ok true)).
  { intros l x uuid clk Hl Hx Hn. unfold TaskManager.mark_completed.
    rewrite Hl. unfold is_recurring, TaskManager._handle_recurring_task_completion.
    simpl. rewrite Hx, next_deadline_after_completion, Hn. reflexivity. }
  rewrite (Hstep tasks t uuid1 clk1 Hfind Hrec Hnext). simpl fst.
  do 2 eexists. split.
  - rewrite (Hstep _ (BaseTask.mark_completed clk1 t) uuid2 clk2).
    + rewrite insert_app_l by (rewrite length_insert; exact Hlt).
      rewrite list_insert_insert_eq, <- app_assoc. reflexivity.
    + unfold TaskManager.get_task_by_id. apply list_find_app_l.
      apply (get_task_by_id_insert _ _ _ t); [exact Hfind | exact Hid].
    + exact Hrec.
    + exact Hnext.
  - repeat split.
Qed.

Lemma mark_completed_twice_recurring_witness :
  exists s1 s2,
    TaskManager.mark_completed (L := ascii_lower)
      (fst (TaskManager.mark_completed (L := ascii_lower) [report; standup]
              "id-standup" "u1" new_year_noon))
      "id-standup" "u2" new_year_noon
    = (<[1%nat := BaseTask.mark_completed new_year_noon standup]> [report; standup]
         ++ [s1; s2], Ok true) /\
    task_id s1 = "u1" /\ task_id s2 = "u2" /\
    deadline_date s1 = jan_1_2024 + 3 /\ deadline_date s2 = jan_1_2024 + 3 /\
    completed s1 = false /\ completed s2 = false /\
    title s1 = title standup /\ title s2 = title standup.
Proof.
  apply (mark_completed_twice_recurring (L := ascii_lower) [report; standup]
           "id-standup" "u1" "u2" new_year_noon new_year_noon 1%nat standup
           (mk_recurrence "daily" 3 (Some jan_1_2024))); reflexivity.
Defined.

(** X13. [cleanup_completed_tasks] raises when the cut-off date is outside
    the calendar.  Otherwise it removes exactly the completed tasks whose
    time of completion is set and lies before the cut-off, keeps the other
    tasks in their order, never removes a pending task, returns the number
    of tasks removed, and removes nothing when run again at the same
    moment. *)
Theorem cleanup_removes_only_old_completed (clk : clock) (tasks : list Task)
    (days_old : Z) :
  (~ valid_date (today clk + - days_old) ->
   TaskManager.cleanup_completed_tasks clk tasks days_old = Raise OverflowError) /\
  (valid_date (today clk + - days_old) ->
   exists tasks' removed,
     let cutoff := mk_datetime (today clk + - days_old) (time_now clk) in
     TaskManager.cleanup_completed_tasks clk tasks days_old = Ok (tasks', removed) /\
     (forall t, t ∈ tasks' <->
        t ∈ tasks /\
        ~ (completed t = true /\
           exists c, completed_at t = Some c /\ datetime_ltb c cutoff = true)) /\
     sublist tasks' tasks /\
     removed = Z.of_nat (length tasks) - Z.of_nat (length tasks') /\
     0 <= removed /\
     TaskManager.get_pending_tasks tasks' = TaskManager.get_pending_tasks tasks /\
     TaskManager.cleanup_completed_tasks clk tasks' days_old = Ok (tasks', 0)).
Proof.
  unfold TaskManager.cleanup_completed_tasks, datetime_sub_days. split.
  - intros Hout. simpl. rewrite (date_add_out_of_range _ _ Hout). reflexivity.
  - intros Hvalid. simpl. rewrite (date_add_in_range _ _ Hvalid). simpl.
    set (keep := fun t : Task =>
           negb (completed t &&
                 match completed_at t with
                 | Some c =>
                     datetime_ltb c
                       (mk_datetime (today clk + - days_old) (time_now clk))
                 | None => false
                 end)).
    do 2 eexists. split; [reflexivity |].
    split; [| split; [| split; [| split; [| split]]]].
    + intros t. rewrite elem_of_List_filter. unfold keep.
      rewrite negb_true_iff, andb_false_iff. split.
      * intros [Hin Hkeep]. split; [exact Hin |].
        intros [Hdone (c & Hat & Hold)]. rewrite Hdone, Hat, Hold in Hkeep.
        destruct Hkeep; discriminate.
      * intros [Hin Hkeep]. split; [exact Hin |].
        destruct (completed t); [| left; reflexivity]. right.
        destruct (completed_at t) as [c |]; [| reflexivity].
        destruct (datetime_ltb c _) eqn:Hold; [| reflexivity].
        exfalso. apply Hkeep. split; [reflexivity |]. exists c. auto.
    + apply List_filter_sublist.
    + reflexivity.
    + pose proof (length_List_filter_le keep tasks). lia.
    + unfold TaskManager.get_pending_tasks.
      apply List_filter_filter_implied. intros t Hpending. unfold keep.
      apply negb_true_iff in Hpending. rewrite Hpending. reflexivity.
    + rewrite (List_filter_filter_implied keep keep tasks) by auto.
      rewrite Z.sub_diag. reflexivity.
Qed.

Lemma cleanup_removes_only_old_completed_witness :
  exists tasks' removed,
    TaskManager.cleanup_completed_tasks (mk_clock (jan_1_2024 + 40) noon)
      sample_store 30
    = Ok (tasks', removed) /\
    (forall t, t ∈ tasks' <->
       t ∈ sample_store /\
       ~ (completed t = true /\
          exists c, completed_at t = Some c /\
            datetime_ltb c (mk_datetime (jan_1_2024 + 40 + - 30) noon) = true)) /\
    sublist tasks' sample_store /\
    removed = Z.of_nat (length sample_store) - Z.of_nat (length tasks') /\
    0 <= removed /\
    TaskManager.get_pending_tasks tasks'
      = TaskManager.get_pending_tasks sample_store /\
    TaskManager.cleanup_completed_tasks (mk_clock (jan_1_2024 + 40) noon)
      tasks' 30 = Ok (tasks', 0).
Proof.
  destruct (cleanup_removes_only_old_completed (mk_clock (jan_1_2024 + 40) noon)
              sample_store 30) as [_ Hreturns].
  apply Hreturns. solve_valid_date.
Defined.

(** Forty days on, the task completed on 2024-01-01 is removed; a task marked
    completed by [update_task], which has no time of completion, stays. *)
Example cleanup_sample :
  (let* res :=
     TaskManager.cleanup_completed_tasks (mk_clock (jan_1_2024 + 40) noon)
       (with_completed true report :: sample_store) 30 in
   Ok (map task_id (fst res), snd res))
  = Ok (["id-report"; "id-report"; "id-standup"; "id-invoice"; "id-call"], 1).
Proof. reflexivity. Qed.

(** *** Saving *)

Lemma tasks_to_dicts_Ok (tasks : list Task) :
  Forall (fun t => forall r, recurring t = Some r -> original_deadline r <> None)
    tasks ->
  exists records,
    TaskManager.tasks_to_dicts tasks = Ok records /\
    Forall2 (fun t d => TaskManager.task_to_dict t = Ok d) tasks records.
Proof.
  induction 1 as [| t tasks Ht Hall IH]; simpl.
  - exists []. split; [reflexivity | constructor].
  - destruct IH as (records & Hrecords & Hall2).
    assert (Hd : exists d, TaskManager.task_to_dict t = Ok d).
    { unfold TaskManager.task_to_dict, is_recurring, RecurringTask.to_dict.
      destruct (recurring t) as [r |] eqn:Hrec; [| eexists; reflexivity].
      destruct (original_deadline r) as [d0 |] eqn:Hd0; [eexists; reflexivity |].
      destruct (Ht r eq_refl Hd0). }
    destruct Hd as [d Hd]. rewrite Hd, Hrecords. simpl.
    exists (d :: records). split; [reflexivity |]. constructor; assumption.
Qed.

Lemma tasks_to_dicts_Raise (tasks : list Task) :
  Exists (fun t => exists r, recurring t = Some r /\ original_deadline r = None)
    tasks ->
  TaskManager.tasks_to_dicts tasks = Raise AttributeError.
Proof.
  induction tasks as [| t tasks IH]; intros Hex; [inversion Hex |]. simpl.
  unfold TaskManager.task_to_dict, is_recurring, RecurringTask.to_dict.
  destruct (recurring t) as [r |] eqn:Hrec.
  - destruct (original_deadline r) as [d0 |] eqn:Hd0; [| reflexivity].
    apply Exists_cons in Hex as [(r' & Hrec' & Hd0') | Hex].
    + congruence.
    + simpl. rewrite (IH Hex). reflexivity.
  - apply Exists_cons in Hex as [(r' & Hrec' & _) | Hex]; [congruence |].
    simpl. rewrite (IH Hex). reflexivity.
Qed.

(** X14. [save_data] writes all tasks or none.  When every Recurring task has
    its [original_deadline] set, the file receives one record per task, in
    order, each carrying the identifier, the class and the completion flag
    of its task.  As soon as one Recurring task has no [original_deadline]
    (one built without a deadline date), the file is left as it was. *)
Theorem save_data_all_or_nothing (clk : clock) (tasks : list Task)
    (file : option saved_file) :
  (Forall (fun t => forall r, recurring t = Some r -> original_deadline r <> None)
     tasks ->
   exists records,
     TaskManager.save_data clk tasks file
       = Some (mk_saved_file records (IsoDateTime (now clk))) /\
     length records = length tasks /\
     (forall i t, tasks !! i = Some t ->
        exists d,
          records !! i = Some d /\
          d !! "task_id" = Some (PyStr (task_id t)) /\
          d !! "completed" = Some (PyBool (completed t)) /\
          d !! "task_type"
            = Some (PyStr (if is_recurring t then "RecurringTask"
                           else "RegularTask")))) /\
  (Exists (fun t => exists r, recurring t = Some r /\ original_deadline r = None)
     tasks ->
   TaskManager.save_data clk tasks file = file).
Proof.
  unfold TaskManager.save_data. split.
  - intros Hall. destruct (tasks_to_dicts_Ok tasks Hall) as (records & -> & Hall2).
    exists records. split; [reflexivity |].
    split; [symmetry; eapply Forall2_length; exact Hall2 |].
    intros i t Hi.
    destruct (Forall2_lookup_l _ _ _ _ _ Hall2 Hi) as (d & Hd & Htd).
    exists d. split; [exact Hd |].
    unfold TaskManager.task_to_dict, RecurringTask.to_dict in Htd.
    unfold is_recurring in *.
    destruct (recurring t) as [r |] eqn:Hrec.
    + destruct (original_deadline r); [| discriminate].
      inversion Htd; subst. unfold BaseTask.to_dict, is_recurring.
      rewrite Hrec. repeat split.
    + inversion Htd; subst. unfold BaseTask.to_dict, is_recurring.
      rewrite Hrec. repeat split.
  - intros Hex. rewrite (tasks_to_dicts_Raise tasks Hex). reflexivity.
Qed.

Lemma save_data_all_or_nothing_witness :
  TaskManager.save_data new_year_noon
    (fst (TaskManager.add_task (L := ascii_lower) sample_store "id-new"
            new_year_noon "New" "" None None 2 "rumah" "recurring" None None))
    None
  = None.
Proof.
  apply save_data_all_or_nothing.
  do 5 apply Exists_cons_tl. apply Exists_cons_hd.
  eexists. split; reflexivity.
Defined.

(** ** Further properties of the reminder aggregator *)

Lemma List_filter_nil {A : Type} (f : A -> bool) (l : list A) :
  (forall x, x ∈ l -> f x = false) -> List.filter f l = [].
Proof.
  induction l as [| x l IH]; intros Hall; [reflexivity |]. simpl.
  rewrite (Hall x) by (apply elem_of_cons; auto).
  apply IH. intros y Hy. apply Hall. apply elem_of_cons. auto.
Qed.

Lemma list_nil_no_elem {A : Type} (l : list A) : (forall x, x ∉ l) -> l = [].
Proof.
  destruct l as [| x l]; [reflexivity |]. intros Hno.
  destruct (Hno x). apply elem_of_cons. auto.
Qed.

Lemma regular_level_of_pending (clk : clock) (t : Task) :
  completed t = false -> RegularTask.get_urgency_level clk t <> "completed".
Proof.
  unfold RegularTask.get_urgency_level. intros ->.
  repeat match goal with
         | |- context [if ?b then _ else _] => destruct b
         end; discriminate.
Qed.

(** X15. [get_tasks_by_urgency] returns the pending Regular tasks whose
    urgency level is the one asked for.  No Recurring task is returned for
    any level, and the level ["completed"] returns nothing. *)
Theorem tasks_by_urgency_regular_pending (clk : clock) (self : Reminder)
    (level : string) :
  (forall t, t ∈ BaseReminder.get_tasks_by_urgency clk self level <->
     t ∈ task_manager self /\ completed t = false /\ recurring t = None /\
     RegularTask.get_urgency_level clk t = level) /\
  Forall (fun t => is_recurring t = false)
    (BaseReminder.get_tasks_by_urgency clk self level) /\
  BaseReminder.get_tasks_by_urgency clk self "completed" = [].
Proof.
  assert (Hmem : forall lvl t,
            t ∈ BaseReminder.get_tasks_by_urgency clk self lvl <->
            t ∈ task_manager self /\ completed t = false /\ recurring t = None /\
            RegularTask.get_urgency_level clk t = lvl).
  { intros lvl t.
    unfold BaseReminder.get_tasks_by_urgency, TaskManager.get_pending_tasks.
    rewrite !elem_of_List_filter, negb_true_iff.
    unfold get_urgency_level, is_recurring.
    destruct (recurring t) as [r |]; simpl.
    - split; [intros [_ Hfalse]; discriminate | intros (_ & _ & Hnone & _); discriminate].
    - rewrite String.eqb_eq. tauto. }
  split; [apply Hmem |]. split.
  - apply Forall_forall. intros t Hin. apply Hmem in Hin as (_ & _ & Hreg & _).
    unfold is_recurring. rewrite Hreg. reflexivity.
  - apply list_nil_no_elem. intros t Hin.
    apply Hmem in Hin as (_ & Hpending & _ & Hlevel).
    exact (regular_level_of_pending clk t Hpending Hlevel).
Qed.

Example tasks_by_urgency_sample :
  map (fun level =>
         map task_id
           (BaseReminder.get_tasks_by_urgency new_year_noon
              (BaseReminder.__init__ sample_store) level))
      ["overdue"; "critical"; "high"; "medium"; "low"; "completed"]
  = [["id-invoice"]; ["id-report"]; ["id-call"]; []; []; []].
Proof. reflexivity. Qed.

Lemma elem_of_urgent_reminders (clk : clock) (self : Reminder) (t : Task) :
  t ∈ ReminderSystem.get_urgent_reminders clk self ->
  t ∈ TaskManager.get_pending_tasks (task_manager self) /\
  deadline_date t <= today clk.
Proof.
  unfold ReminderSystem.get_urgent_reminders.
  rewrite elem_of_py_sorted, elem_of_remove_duplicates. intros [_ Hfirst].
  apply first_occurrence_elem_of, elem_of_urgent_candidates in Hfirst
    as [Hin [[Hpending Hdate] | Hover]].
  - unfold TaskManager.get_pending_tasks. rewrite elem_of_List_filter, Hpending.
    split; [auto | lia].
  - unfold TaskManager.get_pending_tasks. rewrite elem_of_List_filter.
    split; [split; [exact Hin | apply (is_overdue_pending clk); exact Hover] |].
    exact (is_overdue_persists_aux clk t Hover).
Qed.

(** X16. A task is never both an urgent and an upcoming reminder: the urgent
    ones are due today or earlier, the upcoming ones after today.  The
    urgent reminders are pending tasks, and there are no more of them than
    pending tasks. *)
Theorem urgent_and_upcoming_disjoint (clk : clock) (self : Reminder)
    (upcoming : list Task) :
  ReminderSystem.get_upcoming_reminders clk self = Ok upcoming ->
  (forall t, t ∈ ReminderSystem.get_urgent_reminders clk self ->
     t ∈ upcoming -> False) /\
  (forall t, t ∈ ReminderSystem.get_urgent_reminders clk self ->
     completed t = false /\ deadline_date t <= today clk) /\
  (forall t, t ∈ upcoming -> completed t = false /\ today clk < deadline_date t) /\
  (length (ReminderSystem.get_urgent_reminders clk self)
   <= length (TaskManager.get_pending_tasks (task_manager self)))%nat.
Proof.
  intros Hup.
  assert (Hlater : forall t, t ∈ upcoming ->
            completed t = false /\ today clk < deadline_date t).
  { unfold ReminderSystem.get_upcoming_reminders in Hup.
    destruct (TaskManager.get_upcoming_tasks clk (task_manager self) _)
      as [up |] eqn:Hstore; simpl in Hup; inversion Hup; subst.
    apply upcoming_tasks_Ok in Hstore as [_ Hmem].
    intros t Hin. apply elem_of_List_filter in Hin as [Hin Hne].
    apply Hmem in Hin as (_ & Hpending & Hrange).
    apply negb_true_iff, Z.eqb_neq in Hne. split; [exact Hpending | lia]. }
  assert (Hurgent : forall t, t ∈ ReminderSystem.get_urgent_reminders clk self ->
            completed t = false /\ deadline_date t <= today clk).
  { intros t Hin. apply elem_of_urgent_reminders in Hin as [Hpending Hdate].
    unfold TaskManager.get_pending_tasks in Hpending.
    apply elem_of_List_filter in Hpending as [_ Hpending].
    apply negb_true_iff in Hpending. auto. }
  split; [| split; [exact Hurgent | split; [exact Hlater |]]].
  - intros t Hu Hl. apply Hurgent in Hu as [_ Hu]. apply Hlater in Hl as [_ Hl].
    lia.
  - rewrite <- (length_fmap task_id (ReminderSystem.get_urgent_reminders clk self)).
    rewrite <- (length_fmap task_id
                  (TaskManager.get_pending_tasks (task_manager self))).
    apply submseteq_length, NoDup_submseteq.
    + unfold ReminderSystem.get_urgent_reminders. rewrite py_sorted_perm.
      apply remove_duplicates_NoDup.
    + intros id Hid. apply list_elem_of_fmap in Hid as (t & -> & Hin).
      apply list_elem_of_fmap_2. apply elem_of_urgent_reminders in Hin as [Hin _].
      exact Hin.
Qed.

Lemma urgent_and_upcoming_disjoint_witness :
  (length (ReminderSystem.get_urgent_reminders new_year_noon
             (BaseReminder.__init__ sample_store))
   <= length (TaskManager.get_pending_tasks sample_store))%nat.
Proof.
  apply (urgent_and_upcoming_disjoint new_year_noon
           (BaseReminder.__init__ sample_store) [report]).
  reflexivity.
Defined.

(** X17. With a threshold of zero or less there is no upcoming reminder at
    all, whatever the store holds: the call returns the empty list, or
    raises when [today + threshold] is outside the calendar. *)
Theorem no_upcoming_reminder_without_threshold (clk : clock) (self : Reminder) :
  upcoming_threshold (reminder_settings self) <= 0 ->
  (valid_date (today clk + upcoming_threshold (reminder_settings self)) ->
   ReminderSystem.get_upcoming_reminders clk self = Ok []) /\
  (~ valid_date (today clk + upcoming_threshold (reminder_settings self)) ->
   ReminderSystem.get_upcoming_reminders clk self = Raise OverflowError).
Proof.
  intros Hthreshold. split.
  - intros Hvalid.
    destruct (ReminderSystem.get_upcoming_reminders clk self)
      as [reminders |] eqn:Hup.
    + f_equal. apply list_nil_no_elem. intros t Hin.
      unfold ReminderSystem.get_upcoming_reminders in Hup.
      destruct (TaskManager.get_upcoming_tasks clk (task_manager self) _)
        as [up |] eqn:Hstore; simpl in Hup; inversion Hup; subst.
      apply upcoming_tasks_Ok in Hstore as [_ Hmem].
      apply elem_of_List_filter in Hin as [Hin Hne].
      apply Hmem in Hin as (_ & _ & Hrange).
      apply negb_true_iff, Z.eqb_neq in Hne. lia.
    + unfold ReminderSystem.get_upcoming_reminders in Hup.
      rewrite (upcoming_tasks_in_range _ _ _ Hvalid) in Hup. discriminate.
  - intros Hout. unfold ReminderSystem.get_upcoming_reminders,
      TaskManager.get_upcoming_tasks.
    cbv zeta. rewrite (date_add_out_of_range _ _ Hout). reflexivity.
Qed.

Lemma no_upcoming_reminder_without_threshold_witness :
  ReminderSystem.get_upcoming_reminders new_year_noon
    (mk_reminder sample_store (mk_settings 0 (-2) false true))
  = Ok [].
Proof.
  apply (no_upcoming_reminder_without_threshold new_year_noon
           (mk_reminder sample_store (mk_settings 0 (-2) false true))).
  - simpl. lia.
  - solve_valid_date.
Defined.

(** *** The weekly outlook *)

Lemma weekday_add (d i : Z) : weekday (d + i) = (weekday d + i) mod 7.
Proof.
  unfold weekday. rewrite Z.add_mod_idemp_l by lia. f_equal. lia.
Qed.

Lemma week_names_distinct (d : date) :
  NoDup (map (fun i => day_name (d + i)) [0; 1; 2; 3; 4; 5; 6]).
Proof.
  unfold day_name. simpl map. rewrite !weekday_add.
  assert (Hw : 0 <= weekday d < 7) by (apply Z.mod_pos_bound; lia).
  assert (Hcases : weekday d = 0 \/ weekday d = 1 \/ weekday d = 2 \/
                   weekday d = 3 \/ weekday d = 4 \/ weekday d = 5 \/
                   weekday d = 6) by lia.
  destruct Hcases as [-> | [-> | [-> | [-> | [-> | [-> | ->]]]]]];
    refine (bool_decide_unpack _ _); vm_compute; exact I.
Qed.

Lemma week_counts_add_up (tasks : list Task) (d : date) :
  fold_right Z.add 0
    (map (fun i => Z.of_nat (length (TaskManager.get_tasks_by_date tasks (d + i))))
       [0; 1; 2; 3; 4; 5; 6])
  = Z.of_nat (length (List.filter
       (fun t => (d <=? deadline_date t) && (deadline_date t <=? d + 6)) tasks)).
Proof.
  unfold TaskManager.get_tasks_by_date.
  induction tasks as [| t tasks IH]; [reflexivity |].
  simpl in *.
  destruct (Z.leb_spec d (deadline_date t)), (Z.leb_spec (deadline_date t) (d + 6));
    simpl;
    destruct (Z.eqb_spec (deadline_date t) (d + 0)),
      (Z.eqb_spec (deadline_date t) (d + 1)),
      (Z.eqb_spec (deadline_date t) (d + 2)),
      (Z.eqb_spec (deadline_date t) (d + 3)),
      (Z.eqb_spec (deadline_date t) (d + 4)),
      (Z.eqb_spec (deadline_date t) (d + 5)),
      (Z.eqb_spec (deadline_date t) (d + 6)); simpl length; lia.
Qed.

Lemma existsb_high_priority (l : list Task) :
  existsb (fun t => priority t =? 1) l = true <->
  exists t, t ∈ l /\ priority t = 1.
Proof.
  rewrite existsb_exists. split; intros (t & Hin & Hp); exists t.
  - apply list_elem_of_In in Hin. apply Z.eqb_eq in Hp. auto.
  - apply list_elem_of_In in Hin. apply Z.eqb_eq in Hp. auto.
Qed.

Lemma outlook_days_Ok (clk : clock) (self : Reminder) (days : list Z) :
  Forall (fun i => valid_date (today clk + i)) days ->
  ReminderSystem.outlook_days clk self days
  = Ok (map
          (fun i =>
             let day_tasks :=
               TaskManager.get_tasks_by_date (task_manager self) (today clk + i) in
             {| day_date := IsoDate (today clk + i);
                day_day_name := day_name (today clk + i);
                day_is_today := today clk + i =? today clk;
                day_task_count := Z.of_nat (length day_tasks);
                day_tasks := day_tasks;
                day_has_high_priority :=
                  existsb (fun t => priority t =? 1) day_tasks |})
          days).
Proof.
  induction 1 as [| i days Hi Hall IH]; [reflexivity |].
  simpl. unfold ReminderSystem.outlook_day. cbv zeta.
  rewrite (date_add_in_range _ _ Hi). simpl. rewrite IH. reflexivity.
Qed.

(** X18. When the next six days are dates of the calendar,
    [get_weekly_outlook] returns seven entries, for today and the six days
    after it in order: only the first is marked as today, each names a
    different day of the week, each lists the tasks due on its date,
    completed or not, and flags a task of priority 1 among them; together
    the entries count every task due within the week once. *)
Theorem weekly_outlook_seven_days (clk : clock) (self : Reminder) :
  valid_date (today clk) -> valid_date (today clk + 6) ->
  exists outlook,
    ReminderSystem.get_weekly_outlook clk self = Ok outlook /\
    length outlook = 7%nat /\
    (forall (i : nat) info, outlook !! i = Some info ->
       day_date info = IsoDate (today clk + Z.of_nat i) /\
       day_day_name info = day_name (today clk + Z.of_nat i) /\
       (day_is_today info = true <-> i = 0%nat) /\
       day_tasks info
         = TaskManager.get_tasks_by_date (task_manager self)
             (today clk + Z.of_nat i) /\
       day_task_count info = Z.of_nat (length (day_tasks info)) /\
       (day_has_high_priority info = true <->
        exists t, t ∈ day_tasks info /\ priority t = 1)) /\
    NoDup (map day_day_name outlook) /\
    fold_right Z.add 0 (map day_task_count outlook)
    = Z.of_nat (length (List.filter
         (fun t => (today clk <=? deadline_date t)
                   && (deadline_date t <=? today clk + 6))
         (task_manager self))).
Proof.
  intros Htoday Hweek. unfold ReminderSystem.get_weekly_outlook.
  rewrite outlook_days_Ok
    by (unfold valid_date in *; repeat constructor; lia).
  eexists. split; [reflexivity |]. split; [reflexivity |].
  split; [| split].
  - intros i info Hi.
    assert (Hlt : (i < 7)%nat) by (apply lookup_lt_Some in Hi; exact Hi).
    rewrite list_lookup_fmap in Hi.
    destruct i as [| [| [| [| [| [| [| i]]]]]]]; try lia;
      simpl in Hi; inversion Hi; subst; clear Hi; simpl;
      (split; [reflexivity |]); (split; [reflexivity |]);
      (split; [rewrite Z.eqb_eq; split; intros; (lia || discriminate) |]);
      (split; [reflexivity |]); (split; [reflexivity |]);
      apply existsb_high_priority.
  - rewrite map_map. simpl day_day_name. apply week_names_distinct.
  - rewrite map_map. simpl day_task_count. apply week_counts_add_up.
Qed.

Lemma weekly_outlook_seven_days_witness :
  exists outlook,
    ReminderSystem.get_weekly_outlook new_year_noon
      (BaseReminder.__init__ sample_store) = Ok outlook /\
    length outlook = 7%nat /\
    map day_day_name outlook
    = ["Monday"; "Tuesday"; "Wednesday"; "Thursday"; "Friday"; "Saturday";
       "Sunday"] /\
    map day_task_count outlook = [3; 1; 0; 0; 0; 0; 0].
Proof.
  destruct (weekly_outlook_seven_days new_year_noon
              (BaseReminder.__init__ sample_store))
    as (outlook & Hout & Hlen & _); [solve_valid_date | solve_valid_date |].
  exists outlook. split; [exact Hout |]. split; [exact Hlen |].
  vm_compute in Hout. inversion Hout. split; reflexivity.
Defined.

Example weekly_outlook_end_of_calendar :
  ReminderSystem.get_weekly_outlook (mk_clock (dec_31_9999 - 3) noon)
    (BaseReminder.__init__ sample_store)
  = Raise OverflowError.
Proof. reflexivity. Qed.

(** *** The notification history *)

Lemma slice_from_last (k : nat) {A : Type} (l : list A) :
  (0 < k)%nat ->
  slice_from (- Z.of_nat k) l = drop (length l - k) l.
Proof.
  intros Hk. unfold slice_from. cbv zeta.
  destruct (Z.ltb_spec (- Z.of_nat k) 0); [| lia].
  f_equal. lia.
Qed.

(** X19. [log_notification] puts the new entry last and keeps the rest in
    order; the history is cut to its last hundred entries, so that it holds
    one entry more than before, up to one hundred. *)
Theorem log_notification_bounded (clk : clock) (history : list notification)
    (notification_type message : string) :
  let entry :=
    {| notif_timestamp := IsoDateTime (now clk);
       notif_type := notification_type;
       notif_message := message |} in
  let logged :=
    ReminderSystem.log_notification clk history notification_type message in
  last logged = Some entry /\
  length logged = Nat.min (S (length history)) 100 /\
  logged = drop (length (history ++ [entry]) - 100) (history ++ [entry]) /\
  ((length history < 100)%nat -> logged = history ++ [entry]).
Proof.
  intros entry logged.
  assert (Hlogged : logged
            = drop (length (history ++ [entry]) - 100) (history ++ [entry])).
  { unfold logged, ReminderSystem.log_notification. fold entry. cbv zeta.
    destruct (Nat.ltb_spec 100 (length (history ++ [entry]))) as [Hlong | Hshort].
    - apply (slice_from_last 100). lia.
    - replace (length (history ++ [entry]) - 100)%nat with 0%nat by lia.
      reflexivity. }
  assert (Hlen : length (history ++ [entry]) = S (length history))
    by (rewrite length_app; simpl; lia).
  split; [| split; [| split; [exact Hlogged |]]].
  - rewrite Hlogged, drop_app_le by lia. apply last_snoc.
  - rewrite Hlogged, length_drop, Hlen. lia.
  - intros Hshort. rewrite Hlogged, Hlen.
    replace (S (length history) - 100)%nat with 0%nat by lia. reflexivity.
Qed.

(** X20. [get_notification_history] returns the last [limit] entries, or
    all of them when there are fewer, for a positive [limit].  A limit of
    zero returns the whole history, and a negative limit [-k] returns the
    history without its first [k] entries. *)
Theorem notification_history_limit (history : list notification) (limit : Z) :
  (0 < limit ->
   ReminderSystem.get_notification_history history limit
     = drop (length history - Z.to_nat limit) history /\
   length (ReminderSystem.get_notification_history history limit)
     = Nat.min (length history) (Z.to_nat limit)) /\
  (limit = 0 ->
   ReminderSystem.get_notification_history history limit = history) /\
  (limit < 0 ->
   ReminderSystem.get_notification_history history limit
     = drop (Z.to_nat (- limit)) history).
Proof.
  unfold ReminderSystem.get_notification_history, slice_from.
  split; [| split].
  - intros Hpos.
    assert (Heq : match history with
                  | [] => []
                  | _ => drop (Z.to_nat
                           (if - limit <? 0
                            then Z.max (Z.of_nat (length history) + - limit) 0
                            else Z.min (- limit) (Z.of_nat (length history))))
                           history
                  end
                  = drop (length history - Z.to_nat limit) history).
    { destruct history as [| n history]; [reflexivity |].
      destruct (Z.ltb_spec (- limit) 0); [| lia]. f_equal. lia. }
    cbv zeta. rewrite Heq. split; [reflexivity |]. rewrite length_drop. lia.
  - intros ->. destruct history; reflexivity.
  - intros Hneg. cbv zeta. destruct history as [| n history].
    + rewrite drop_nil. reflexivity.
    + destruct (Z.ltb_spec (- limit) 0); [lia |].
      destruct (Z.min_spec (- limit) (Z.of_nat (length (n :: history))))
        as [[_ ->] | [Hge ->]]; [reflexivity |].
      rewrite Nat2Z.id, !drop_ge; [reflexivity | | ]; simpl length in *; lia.
Qed.

Lemma notification_history_limit_witness :
  let entry := fun m => mk_notification (IsoDateTime (now new_year_noon)) "daily" m in
  ReminderSystem.get_notification_history [entry "a"; entry "b"; entry "c"] 2
    = [entry "b"; entry "c"] /\
  ReminderSystem.get_notification_history [entry "a"; entry "b"; entry "c"] 0
    = [entry "a"; entry "b"; entry "c"] /\
  ReminderSystem.get_notification_history [entry "a"; entry "b"; entry "c"] (-1)
    = [entry "b"; entry "c"].
Proof.
  intros entry.
  destruct (notification_history_limit [entry "a"; entry "b"; entry "c"] 2)
    as ([Hlast _] & _ & _); [lia |].
  destruct (notification_history_limit [entry "a"; entry "b"; entry "c"] 0)
    as (_ & Hzero & _).
  destruct (notification_history_limit [entry "a"; entry "b"; entry "c"] (-1))
    as (_ & _ & Hneg).
  split; [exact Hlast |]. split; [exact (Hzero eq_refl) |].
  apply Hneg. lia.
Defined.

(** *** Suggestions *)

(** X21. The schedule suggestion lists at most three, two and one titles
    for the morning, the afternoon and the evening: the titles of the first
    pending tasks of priority 1, 2 and 3 in the order of the store.  A
    completed task is never suggested. *)
Theorem schedule_suggestion_bounds (self : Reminder) :
  let suggestion := SmartReminder.get_optimal_schedule_suggestion self in
  let first_pending := fun (n : nat) (p : Z) =>
    map title
      (take n (List.filter (fun t => negb (completed t) && (priority t =? p))
                 (task_manager self))) in
  morning_tasks suggestion = first_pending 3%nat 1 /\
  afternoon_tasks suggestion = first_pending 2%nat 2 /\
  evening_tasks suggestion = first_pending 1%nat 3 /\
  (length (morning_tasks suggestion) <= 3)%nat /\
  (length (afternoon_tasks suggestion) <= 2)%nat /\
  (length (evening_tasks suggestion) <= 1)%nat /\
  (forall ttl,
     ttl ∈ morning_tasks suggestion ++ afternoon_tasks suggestion
             ++ evening_tasks suggestion ->
     exists t, t ∈ task_manager self /\ title t = ttl /\ completed t = false /\
               valid_priority t).
Proof.
  intros suggestion first_pending.
  assert (Hfilter : forall p,
            List.filter (fun t => priority t =? p)
              (TaskManager.get_pending_tasks (task_manager self))
            = List.filter (fun t => negb (completed t) && (priority t =? p))
                (task_manager self)).
  { intros p. unfold TaskManager.get_pending_tasks.
    induction (task_manager self) as [| t l IH]; [reflexivity |]. simpl.
    destruct (completed t); simpl; [exact IH |].
    destruct (priority t =? p); rewrite IH; reflexivity. }
  assert (Hfrom : forall n p ttl, ttl ∈ first_pending n p ->
            exists t, t ∈ task_manager self /\ title t = ttl /\
                      completed t = false /\ priority t = p).
  { intros n p ttl Hin. unfold first_pending in Hin.
    apply list_elem_of_fmap in Hin as (t & -> & Hin).
    apply elem_of_take in Hin as (i & Hin & _).
    apply list_elem_of_lookup_2, elem_of_List_filter in Hin as [Hin Hkeep].
    apply andb_prop in Hkeep as [Hpending Hp].
    apply negb_true_iff in Hpending. apply Z.eqb_eq in Hp. eauto. }
  unfold suggestion, SmartReminder.get_optimal_schedule_suggestion. simpl.
  rewrite !Hfilter. fold (first_pending 3%nat 1) (first_pending 2%nat 2)
    (first_pending 1%nat 3).
  split; [reflexivity |]. split; [reflexivity |]. split; [reflexivity |].
  unfold first_pending at 1 2 3. rewrite !length_map, !length_take.
  split; [lia |]. split; [lia |]. split; [lia |].
  intros ttl Hin. unfold valid_priority.
  rewrite !elem_of_app in Hin. destruct Hin as [Hin | [Hin | Hin]];
    apply Hfrom in Hin as (t & Hin & Ht & Hpending & Hp); exists t;
    (split; [exact Hin | split; [exact Ht | split; [exact Hpending | lia]]]).
Qed.

Example schedule_suggestion_sample :
  SmartReminder.get_optimal_schedule_suggestion (BaseReminder.__init__ sample_store)
  = {| morning_tasks := ["Report"; "Standup"];
       afternoon_tasks := ["Invoice"];
       evening_tasks := ["Call"] |}.
Proof. reflexivity. Qed.

Lemma count_categories_lookup_None (tasks : list Task) (c : string) :
  TaskManager.count_categories tasks !! c = None <->
  Forall (fun t => category t <> c) tasks.
Proof.
  unfold TaskManager.count_categories. rewrite count_categories_fold.
  cbv zeta. rewrite lookup_empty.
  induction tasks as [| t tasks IH]; simpl.
  - split; [constructor | reflexivity].
  - destruct (String.eqb_spec (category t) c) as [Heq | Hne]; simpl length.
    + rewrite Nat2Z.inj_succ.
      destruct (Z.eqb_spec (Z.succ (Z.of_nat (length (List.filter
                  (fun t0 => String.eqb (category t0) c) tasks)))) 0); [lia |].
      split; [discriminate |]. intros Hall. apply Forall_cons in Hall as [Hne _].
      contradiction.
    + rewrite IH, Forall_cons. tauto.
Qed.

Lemma count_categories_dom (tasks : list Task) (c : string) :
  c ∈ dom (TaskManager.count_categories tasks) <->
  exists t, t ∈ tasks /\ category t = c.
Proof.
  rewrite elem_of_dom, <- not_eq_None_Some, count_categories_lookup_None.
  induction tasks as [| t tasks IH].
  - split; [intros Hnot; destruct Hnot; constructor |].
    intros (t & Hin & _). inversion Hin.
  - rewrite Forall_cons. split.
    + intros Hnot. destruct (String.eqb_spec (category t) c) as [Heq | Hne].
      * exists t. split; [apply elem_of_cons; auto | exact Heq].
      * destruct IH as [IH _]. destruct IH as (t' & Hin & Ht'); [tauto |].
        exists t'. split; [apply elem_of_cons; auto | exact Ht'].
    + intros (t' & Hin & Ht') [Hne Hall].
      apply elem_of_cons in Hin as [-> | Hin]; [contradiction |].
      apply IH; [eauto | exact Hall].
Qed.

Lemma count_categories_size_one (tasks : list Task) :
  size (TaskManager.count_categories tasks) = 1%nat <->
  tasks <> [] /\ exists c, Forall (fun t => category t = c) tasks.
Proof.
  rewrite <- (size_dom (D := gset string)). split.
  - intros Hsize. destruct tasks as [| t0 tasks].
    + vm_compute in Hsize. discriminate.
    + split; [discriminate |]. exists (category t0).
      apply Forall_forall. intros t Hin.
      apply (size_singleton_inv _ _ _ Hsize); apply count_categories_dom.
      * exists t. auto.
      * exists t0. split; [apply elem_of_cons; auto | reflexivity].
  - intros [Hne [c Hall]].
    assert (Hdom : dom (TaskManager.count_categories tasks) = {[c]}).
    { apply set_eq. intros c'. rewrite count_categories_dom, elem_of_singleton.
      rewrite Forall_forall in Hall. split.
      - intros (t & Hin & <-). apply Hall. exact Hin.
      - intros ->. destruct tasks as [| t0 tasks]; [contradiction |].
        exists t0. split; [apply elem_of_cons; auto |].
        apply Hall. apply elem_of_cons. auto. }
    rewrite Hdom. apply size_singleton.
Qed.

(** X22. [get_smart_recommendations] returns exactly when every priority of
    the store is 1, 2 or 3.  Among its at most four messages, the one about
    overdue tasks appears exactly when more than three tasks are overdue,
    the one about categories exactly when the store is not empty and all
    its tasks carry one and the same category, and the one about priorities
    exactly when the tasks of priority 1 outnumber those of priorities 2
    and 3 together; on the empty store only the advice to break up large
    tasks is given. *)
Theorem smart_recommendations_rules (clk : clock) (self : Reminder) :
  (returns (SmartReminder.get_smart_recommendations clk self) <->
   Forall valid_priority (task_manager self)) /\
  (forall recs,
     SmartReminder.get_smart_recommendations clk self = Ok recs ->
     ("⚠️ You have many overdue tasks. Consider rescheduling or prioritizing"
        ∈ recs <->
      (3 < length (TaskManager.get_overdue_tasks clk (task_manager self)))%nat) /\
     ("📋 Try categorizing your tasks for better organization" ∈ recs <->
      task_manager self <> [] /\
      exists c, Forall (fun t => category t = c) (task_manager self)) /\
     ("🎯 Consider if all high-priority tasks are truly urgent" ∈ recs <->
      (length (TaskManager.get_tasks_by_priority (task_manager self) 2)
       + length (TaskManager.get_tasks_by_priority (task_manager self) 3)
       < length (TaskManager.get_tasks_by_priority (task_manager self) 1))%nat) /\
     (length recs <= 4)%nat /\
     (task_manager self = [] ->
      recs = ["💡 Consider breaking large tasks into smaller ones"])).
Proof.
  unfold SmartReminder.get_smart_recommendations, TaskManager.get_statistics.
  cbv zeta.
  destruct (TaskManager.count_priorities _ (task_manager self)) as [m |] eqn:Hm.
  - pose proof (count_priorities_Ok _ _ _ Hm 1) as H1.
    pose proof (count_priorities_Ok _ _ _ Hm 2) as H2.
    pose proof (count_priorities_Ok _ _ _ Hm 3) as H3.
    rewrite lookup_insert_eq in H1.
    rewrite lookup_insert_ne, lookup_insert_eq in H2 by lia.
    rewrite !lookup_insert_ne, lookup_insert_eq in H3 by lia.
    simpl in H1, H2, H3. rewrite Z.add_0_l in H1, H2, H3.
    unfold bind, SmartReminder.getitem. cbn [stat_by_priority stat_overdue
      stat_by_category stat_completion_rate].
    rewrite H1, H2, H3.
    split.
    + split; [| intros _; eexists; reflexivity]. intros _.
      eapply Forall_impl; [exact (count_priorities_Ok_keys _ _ _ Hm) |].
      intros t Hsome. apply priority_counters_keys. exact Hsome.
    + intros recs Hrecs. inversion Hrecs as [Heq]; clear Hrecs Heq.
      rewrite <- count_categories_size_one.
      destruct (Z.ltb_spec 3
                  (Z.of_nat (length (TaskManager.get_overdue_tasks clk
                                       (task_manager self))))) as [Hov | Hov];
        destruct (Nat.eqb_spec (size (TaskManager.count_categories
                                        (task_manager self))) 1) as [Hcat | Hcat];
        destruct (Z.ltb_spec
                    (Z.of_nat (length (TaskManager.get_tasks_by_priority
                                         (task_manager self) 2))
                     + Z.of_nat (length (TaskManager.get_tasks_by_priority
                                           (task_manager self) 3)))
                    (Z.of_nat (length (TaskManager.get_tasks_by_priority
                                         (task_manager self) 1))))
          as [Hprio | Hprio];
        destruct (SmartReminder.below_70 _) eqn:Hrate.
      all: (split; [| split; [| split; [| split]]]);
        try (rewrite list_elem_of_In; simpl In;
             intuition (try discriminate; try lia));
        try (simpl; lia).
      all: intros Hempty; rewrite Hempty in *; simpl in *; try lia;
        try (vm_compute in Hcat; discriminate);
        try (vm_compute in Hrate; discriminate); try reflexivity.
  - unfold bind. split.
    + split; [intros [recs Hrecs]; discriminate |]. intros Hvalid.
      destruct (count_priorities_returns (task_manager self)
                  (<[1 := 0]> (<[2 := 0]> (<[3 := 0]> ∅)))) as [m Hm'].
      * eapply Forall_impl; [exact Hvalid |].
        intros t [-> | [-> | ->]]; eexists; reflexivity.
      * rewrite Hm' in Hm. discriminate.
    + intros recs Hrecs. discriminate.
Qed.

Lemma smart_recommendations_rules_witness :
  returns (SmartReminder.get_smart_recommendations new_year_noon
             (BaseReminder.__init__ sample_store)) /\
  ("🎯 Consider if all high-priority tasks are truly urgent"
     ∈ ["💡 Consider breaking large tasks into smaller ones";
        "🎯 Consider if all high-priority tasks are truly urgent"] <->
   (length (TaskManager.get_tasks_by_priority sample_store 2)
    + length (TaskManager.get_tasks_by_priority sample_store 3)
    < length (TaskManager.get_tasks_by_priority sample_store 1))%nat).
Proof.
  destruct (smart_recommendations_rules new_year_noon
              (BaseReminder.__init__ sample_store)) as [Hreturns Hrules].
  split.
  - apply Hreturns. exact sample_store_valid_priorities.
  - destruct (Hrules
                ["💡 Consider breaking large tasks into smaller ones";
                 "🎯 Consider if all high-priority tasks are truly urgent"])
      as (_ & _ & Hprio & _); [vm_compute; reflexivity | exact Hprio].
Defined.

(** *** The daily summary *)

Lemma length_List_filter_mono {A : Type} (f g : A -> bool) (l : list A) :
  (forall x, f x = true -> g x = true) ->
  (length (List.filter f l) <= length (List.filter g l))%nat.
Proof.
  intros Himp. induction l as [| x l IH]; simpl; [lia |].
  destruct (f x) eqn:Hf.
  - rewrite (Himp x Hf). simpl. lia.
  - destruct (g x); simpl; lia.
Qed.

Lemma NoDup_ids_filter (f : Task -> bool) (l : list Task) :
  NoDup (map task_id l) -> NoDup (map task_id (List.filter f l)).
Proof.
  induction l as [| x l IH]; simpl; intros Hnodup; [constructor |].
  apply NoDup_cons in Hnodup as [Hnotin Hnodup].
  destruct (f x); simpl; [| apply IH; exact Hnodup].
  apply NoDup_cons. split; [| apply IH; exact Hnodup].
  intros Hin. apply Hnotin.
  apply list_elem_of_fmap in Hin as (t & Hid & Hin).
  apply elem_of_List_filter in Hin as [Hin _].
  rewrite Hid. apply (list_elem_of_fmap_2 task_id). exact Hin.
Qed.

Lemma same_id_same_task (l : list Task) (t t' : Task) :
  NoDup (map task_id l) -> t ∈ l -> t' ∈ l -> task_id t = task_id t' -> t = t'.
Proof.
  intros Hnodup Hin Hin' Hid.
  apply list_elem_of_lookup in Hin as [i Hi].
  apply list_elem_of_lookup in Hin' as [j Hj].
  assert (i = j).
  { apply (NoDup_lookup (map task_id l) i j (task_id t)); [exact Hnodup | |].
    - rewrite list_lookup_fmap, Hi. reflexivity.
    - rewrite list_lookup_fmap, Hj. simpl. congruence. }
  subst j. congruence.
Qed.

Lemma length_urgent_le_pending (clk : clock) (self : Reminder) :
  (length (ReminderSystem.get_urgent_reminders clk self)
   <= length (TaskManager.get_pending_tasks (task_manager self)))%nat.
Proof.
  rewrite <- (length_fmap task_id (ReminderSystem.get_urgent_reminders clk self)).
  rewrite <- (length_fmap task_id
                (TaskManager.get_pending_tasks (task_manager self))).
  apply submseteq_length, NoDup_submseteq.
  - unfold ReminderSystem.get_urgent_reminders. rewrite py_sorted_perm.
    apply remove_duplicates_NoDup.
  - intros id Hid. apply list_elem_of_fmap in Hid as (t & -> & Hin).
    apply list_elem_of_fmap_2. apply elem_of_urgent_reminders in Hin as [Hin _].
    exact Hin.
Qed.

Lemma elem_of_upcoming_reminders (clk : clock) (self : Reminder)
    (upcoming : list Task) (t : Task) :
  ReminderSystem.get_upcoming_reminders clk self = Ok upcoming ->
  t ∈ upcoming ->
  t ∈ TaskManager.get_pending_tasks (task_manager self) /\
  today clk < deadline_date t.
Proof.
  unfold ReminderSystem.get_upcoming_reminders. intros Hup Hin.
  destruct (TaskManager.get_upcoming_tasks clk (task_manager self) _)
    as [up |] eqn:Hstore; simpl in Hup; inversion Hup; subst.
  apply upcoming_tasks_Ok in Hstore as [_ Hmem].
  apply elem_of_List_filter in Hin as [Hin Hne].
  apply Hmem in Hin as (Hin & Hpending & Hrange).
  apply negb_true_iff, Z.eqb_neq in Hne.
  unfold TaskManager.get_pending_tasks. rewrite elem_of_List_filter, Hpending.
  split; [auto | lia].
Qed.

Lemma upcoming_reminders_ids_NoDup (clk : clock) (self : Reminder)
    (upcoming : list Task) :
  NoDup (map task_id (task_manager self)) ->
  ReminderSystem.get_upcoming_reminders clk self = Ok upcoming ->
  NoDup (map task_id upcoming).
Proof.
  unfold ReminderSystem.get_upcoming_reminders, TaskManager.get_upcoming_tasks.
  cbv zeta. intros Hnodup Hup.
  destruct (date_add (today clk) _) as [future |]; simpl in Hup;
    inversion Hup; subst.
  apply NoDup_ids_filter. rewrite py_sorted_perm.
  apply NoDup_ids_filter. exact Hnodup.
Qed.

(** X23. Whenever the daily summary is returned, its counts are consistent:
    the urgent reminders, the upcoming reminders and the pending tasks of
    priority 1 are each no more than the pending tasks.  When identifiers
    are unique, every overdue task is an urgent reminder, and the urgent and
    the upcoming reminders together are no more than the pending tasks. *)
Theorem daily_summary_counts (clk : clock) (self : Reminder) (s : daily_summary) :
  ReminderSystem.create_daily_summary clk self = Ok s ->
  summary_date s = IsoDate (today clk) /\
  0 <= summary_urgent_count s <= summary_total_pending s /\
  0 <= summary_upcoming_count s <= summary_total_pending s /\
  0 <= summary_high_priority_pending s <= summary_total_pending s /\
  (NoDup (map task_id (task_manager self)) ->
   summary_overdue_count s <= summary_urgent_count s /\
   summary_urgent_count s + summary_upcoming_count s <= summary_total_pending s).
Proof.
  unfold ReminderSystem.create_daily_summary. cbv zeta.
  destruct (ReminderSystem.get_upcoming_reminders clk self) as [upcoming |] eqn:Hup;
    [| discriminate].
  destruct (TaskManager.get_statistics clk (task_manager self)) as [stats |];
    [| discriminate].
  simpl. intros Hs. inversion Hs; subst; clear Hs; simpl.
  pose proof (length_urgent_le_pending clk self) as Hurgent.
  assert (Hupcoming : (length upcoming
            <= length (TaskManager.get_pending_tasks (task_manager self)))%nat).
  { revert Hup.
    unfold ReminderSystem.get_upcoming_reminders, TaskManager.get_upcoming_tasks.
    cbv zeta. destruct (date_add (today clk) _) as [future |]; simpl;
      intros Hup; inversion Hup; subst.
    etransitivity; [apply length_List_filter_le |].
    rewrite py_sorted_perm. unfold TaskManager.get_pending_tasks.
    apply length_List_filter_mono. intros t Ht.
    apply andb_prop in Ht as [_ Ht]. exact Ht. }
  pose proof (length_List_filter_le (fun t => priority t =? 1)
                (TaskManager.get_pending_tasks (task_manager self))) as Hhigh.
  unfold ReminderSystem.get_priority_reminders.
  split; [reflexivity |]. split; [lia |]. split; [lia |]. split; [lia |].
  intros Hnodup. split.
  - unfold ReminderSystem.get_overdue_reminders.
    apply inj_le.
    rewrite <- (length_fmap task_id
                  (TaskManager.get_overdue_tasks clk (task_manager self))).
    rewrite <- (length_fmap task_id
                  (ReminderSystem.get_urgent_reminders clk self)).
    apply submseteq_length, NoDup_submseteq.
    + apply NoDup_ids_filter. exact Hnodup.
    + intros id Hid. apply list_elem_of_fmap in Hid as (t & -> & Hin).
      assert (Hcand : t ∈ ReminderSystem.today_tasks clk self
                          ++ TaskManager.get_overdue_tasks clk (task_manager self))
        by (apply elem_of_app; right; exact Hin).
      destruct (first_occurrence_exists t _ Hcand) as (t' & Hfirst & Hid).
      rewrite <- Hid. apply list_elem_of_fmap_2.
      unfold ReminderSystem.get_urgent_reminders.
      rewrite elem_of_py_sorted, elem_of_remove_duplicates.
      split; [apply not_elem_of_empty | exact Hfirst].
  - rewrite <- Nat2Z.inj_add. apply inj_le. rewrite <- length_app.
    rewrite <- (length_fmap task_id
                  (ReminderSystem.get_urgent_reminders clk self ++ upcoming)).
    rewrite <- (length_fmap task_id
                  (TaskManager.get_pending_tasks (task_manager self))).
    apply submseteq_length, NoDup_submseteq.
    + rewrite fmap_app. apply NoDup_app. split; [| split].
      * unfold ReminderSystem.get_urgent_reminders. rewrite py_sorted_perm.
        apply remove_duplicates_NoDup.
      * intros id Hid Hid'.
        apply list_elem_of_fmap in Hid as (t & -> & Hin).
        apply list_elem_of_fmap in Hid' as (t' & Hsame & Hin').
        apply elem_of_urgent_reminders in Hin as [Hin Hdate].
        apply (elem_of_upcoming_reminders _ _ _ _ Hup) in Hin' as [Hin' Hdate'].
        unfold TaskManager.get_pending_tasks in Hin, Hin'.
        apply elem_of_List_filter in Hin as [Hin _].
        apply elem_of_List_filter in Hin' as [Hin' _].
        pose proof (same_id_same_task _ _ _ Hnodup Hin Hin' Hsame). subst t'. lia.
      * apply (upcoming_reminders_ids_NoDup clk self); assumption.
    + intros id Hid. rewrite fmap_app in Hid.
      apply elem_of_app in Hid as [Hid | Hid];
        apply list_elem_of_fmap in Hid as (t & -> & Hin);
        apply list_elem_of_fmap_2.
      * apply elem_of_urgent_reminders in Hin as [Hin _]. exact Hin.
      * apply (elem_of_upcoming_reminders _ _ _ _ Hup) in Hin as [Hin _]. exact Hin.
Qed.

Lemma daily_summary_counts_witness :
  exists s,
    ReminderSystem.create_daily_summary new_year_noon
      (BaseReminder.__init__ sample_store) = Ok s /\
    summary_overdue_count s <= summary_urgent_count s /\
    summary_urgent_count s + summary_upcoming_count s <= summary_total_pending s.
Proof.
  exists {| summary_date := IsoDate jan_1_2024;
            summary_urgent_count := 3;
            summary_upcoming_count := 1;
            summary_overdue_count := 2;
            summary_total_pending := 4;
            summary_today_tasks :=
              TaskManager.get_tasks_by_date sample_store jan_1_2024;
            summary_high_priority_pending := 2;
            summary_completion_rate := NumFloat 20%float |}.
  assert (Hs : ReminderSystem.create_daily_summary new_year_noon
                 (BaseReminder.__init__ sample_store)
               = Ok {| summary_date := IsoDate jan_1_2024;
                       summary_urgent_count := 3;
                       summary_upcoming_count := 1;
                       summary_overdue_count := 2;
                       summary_total_pending := 4;
                       summary_today_tasks :=
                         TaskManager.get_tasks_by_date sample_store jan_1_2024;
                       summary_high_priority_pending := 2;
                       summary_completion_rate := NumFloat 20%float |})
    by (vm_compute; reflexivity).
  split; [exact Hs |].
  destruct (daily_summary_counts new_year_noon
              (BaseReminder.__init__ sample_store) _ Hs)
    as (_ & _ & _ & _ & Hunique).
  apply Hunique. refine (bool_decide_unpack _ _). vm_compute. exact I.
Defined.

(** ** Instances on the sample store *)

Lemma log_notification_bounded_witness :
  ReminderSystem.log_notification new_year_noon
    [mk_notification (IsoDateTime (now new_year_noon)) "daily" "first"]
    "urgent" "second"
  = [mk_notification (IsoDateTime (now new_year_noon)) "daily" "first";
     mk_notification (IsoDateTime (now new_year_noon)) "urgent" "second"].
Proof.
  destruct (log_notification_bounded new_year_noon
              [mk_notification (IsoDateTime (now new_year_noon)) "daily" "first"]
              "urgent" "second") as (_ & _ & _ & Hshort).
  apply Hshort. simpl. lia.
Defined.

Lemma schedule_suggestion_bounds_witness :
  exists t, t ∈ sample_store /\ title t = "Invoice" /\ completed t = false /\
            valid_priority t.
Proof.
  destruct (schedule_suggestion_bounds (BaseReminder.__init__ sample_store))
    as (_ & _ & _ & _ & _ & _ & Hfrom).
  apply (Hfrom "Invoice").
  apply list_elem_of_In. vm_compute. auto.
Defined.

Lemma search_tasks_substring_witness :
  report ∈ TaskManager.search_tasks (L := ascii_lower) sample_store "QUARTER".
Proof.
  destruct (search_tasks_substring (L := ascii_lower) sample_store "QUARTER")
    as (Hmem & _).
  apply Hmem. split; [apply elem_of_cons; auto |].
  right. exists "", "ly". reflexivity.
Defined.

Lemma tasks_by_urgency_regular_pending_witness :
  report ∈ BaseReminder.get_tasks_by_urgency new_year_noon
             (BaseReminder.__init__ sample_store) "critical".
Proof.
  destruct (tasks_by_urgency_regular_pending new_year_noon
              (BaseReminder.__init__ sample_store) "critical") as (Hmem & _).
  apply Hmem. split; [apply elem_of_cons; auto |]. repeat split.
Defined.
